(** * Meeting-hall booking board: conflict check, save, load and grid layout

  A shallow embedding of the logic of [App.tsx] (conflict check, save,
  startup load, spreadsheet export) and of the [ScheduleTable] component
  (the on-screen grid), followed by the properties proved about them.

  Conventions.
  - JavaScript numbers that the code uses as array indices, spans and
    spreadsheet coordinates are integers; they are [Z] here, and an
    [indexOf] that finds nothing is [-1] as in JavaScript.
  - JavaScript strings are [string]. [===] on strings is [String.eqb] and
    [<] is the lexicographic order on code units, [String.ltb]; the two
    orders coincide on the ASCII labels and dates that the code compares.
  - [undefined] read from an array out of range is [None].
  - A plain object that the code uses as a map is the finite map of its
    own properties; where a key comes from the data, the reads and writes
    at a name that [Object.prototype] defines are written out, and a
    [TypeError] they lead to is [None]. *)

From Equations Require Import Equations.
From stdpp Require Import base list strings gmap.
From Stdlib Require Import ZArith Lia DecimalString.

#[local] Open Scope Z_scope.

(** ** [types.ts]: the data model *)

Module Types.

(** Modelled from the spec: the [Hall] enum of [types.ts], which is not
    among the sources; an enum of exactly two values, here with the two
    members the code names. *)
Inductive Hall : Type := AlWaha | AlDana.

#[global] Instance Hall_eq_dec : EqDecision Hall.
Proof. solve_decision. Defined.

(** Modelled from the spec: the [Booking] interface of [types.ts], which is
    not among the sources; the fields are those of the data model, which
    are also those of the booking literals of [generateInitialBookings]. *)
Record Booking : Type := mkBooking {
  id : string;
  hallId : Hall;
  date : string;
  time : string;
  endTime : string;
  department : string;
  notes : string
}.

#[global] Instance Booking_eq_dec : EqDecision Booking.
Proof. solve_decision. Defined.

(** [Omit<Booking, 'id' | 'hallId'>], the payload of the booking form. *)
Record BookingData : Type := mkBookingData {
  bd_date : string;
  bd_time : string;
  bd_endTime : string;
  bd_department : string;
  bd_notes : string
}.

(** [{ ...booking, ...bookingData }]: the form fields overwrite the
    booking's, [id] and [hallId] are not among them. *)
Definition spread (booking : Booking) (bookingData : BookingData) : Booking :=
  {| id := id booking;
     hallId := hallId booking;
     date := bd_date bookingData;
     time := bd_time bookingData;
     endTime := bd_endTime bookingData;
     department := bd_department bookingData;
     notes := bd_notes bookingData |}.

(** A calendar day ([Date] with its time of day left out), as the number
    of days since 1970-01-01 in local time. [d.setDate(d.getDate() + k)]
    is [d + k]: JavaScript carries a day past the end of the month into
    the following months. *)
Definition Date : Type := Z.

End Types.
Export Types.

(** ** The JavaScript operations the code relies on *)

Module Js.

(** [a < b] on strings. *)
Definition lt (a b : string) : bool := String.ltb a b.

(** [a > b] on strings: the same comparison with the operands swapped. *)
Definition gt (a b : string) : bool := String.ltb b a.

(** [s === v] where [v] may be [undefined]. *)
Definition strict_eq (s : string) (v : option string) : bool :=
  match v with
  | Some t => String.eqb s t
  | None => false
  end.

(** [arr[i]]: [undefined] out of range. *)
Definition get {A : Type} (arr : list A) (i : Z) : option A :=
  if i <? 0 then None else arr !! Z.to_nat i.

Fixpoint indexOf_from (arr : list string) (x : string) (k : Z) : Z :=
  match arr with
  | [] => -1
  | y :: rest => if String.eqb y x then k else indexOf_from rest x (k + 1)
  end.

(** [arr.indexOf(x)]: the first position of [x], or [-1]. *)
Definition indexOf (arr : list string) (x : string) : Z := indexOf_from arr x 0.

(** [arr.length]. *)
Definition len {A : Type} (arr : list A) : Z := Z.of_nat (length arr).

(** [arr.slice(0, -1)]: all but the last element. *)
Definition slice_0_m1 {A : Type} (arr : list A) : list A :=
  take (length arr - 1)%nat arr.

(** [strs.filter(Boolean)]: the empty string is the only falsy string. *)
Definition filter_Boolean (strs : list string) : list string :=
  List.filter (fun s => negb (String.eqb s EmptyString)) strs.

(** [strs.join(sep)]. *)
Fixpoint join (sep : string) (strs : list string) : string :=
  match strs with
  | [] => EmptyString
  | [s] => s
  | s :: rest => (s ++ sep ++ join sep rest)%string
  end.

(** The names of the properties that every plain object inherits from
    [Object.prototype]. *)
Definition objectPrototypeKeys : list string :=
  ["constructor"; "__proto__"; "hasOwnProperty"; "isPrototypeOf";
   "propertyIsEnumerable"; "toLocaleString"; "toString"; "valueOf";
   "__defineGetter__"; "__defineSetter__"; "__lookupGetter__";
   "__lookupSetter__"]%string.

(** [key] names a property that an object without own properties of that
    name inherits: [{}[key]] is not [undefined]. *)
Definition inherited (key : string) : bool :=
  bool_decide (key ∈ objectPrototypeKeys).

(** What [obj[key]] reads on a plain object: the value of the own
    property, else the property inherited from [Object.prototype] (a
    function, or the prototype itself for [__proto__]: truthy, and neither
    has a [push] or a [map]), else [undefined]. *)
Inductive Property (A : Type) : Type :=
  | Own (value : A)
  | Inherited
  | Undefined.

Arguments Own {A} value.
Arguments Inherited {A}.
Arguments Undefined {A}.

(** [obj[key]], for the object with the own properties [obj]. *)
Definition getProperty {A : Type} (obj : gmap string A) (key : string)
    : Property A :=
  match obj !! key with
  | Some value => Own value
  | None => if inherited key then Inherited else Undefined
  end.

End Js.

(** ** [utils/dateUtils.ts] *)

Module DateUtils.

(** Modelled from the spec: the calendar behind [formatToYYYYMMDD]. The
    year, month (1 to 12) and day of the month of a day number, in the
    proleptic Gregorian calendar. *)
Definition civil (day : Date) : Z * Z * Z :=
  let z := day + 719468 in
  let era := z / 146097 in
  let doe := z - era * 146097 in
  let yoe := (doe - doe / 1460 + doe / 36524 - doe / 146096) / 365 in
  let doy := doe - (365 * yoe + yoe / 4 - yoe / 100) in
  let mp := (5 * doy + 2) / 153 in
  let d := doy - (153 * mp + 2) / 5 + 1 in
  let m := if mp <? 10 then mp + 3 else mp - 9 in
  let y := yoe + era * 400 in
  (if m <=? 2 then y + 1 else y, m, d).

Definition digit (n : Z) : Ascii.ascii :=
  Ascii.ascii_of_nat (48 + Z.to_nat (n mod 10)).

(** [String(n).padStart(2, '0')] for [0 <= n < 100]. *)
Definition pad2 (n : Z) : string :=
  String (digit (n / 10)) (String (digit n) EmptyString).

(** Four digits, for the years 0 to 9999. *)
Definition pad4 (n : Z) : string :=
  String (digit (n / 1000)) (String (digit (n / 100)) (pad2 n)).

(** Modelled from the spec: [formatToYYYYMMDD] of [utils/dateUtils.ts],
    which is not among the sources. The spec has the date of a booking as
    an ISO-like [YYYY-MM-DD] string with no time zone component. *)
Definition formatToYYYYMMDD (day : Date) : string :=
  let '(y, m, d) := civil day in
  (pad4 y ++ "-" ++ pad2 m ++ "-" ++ pad2 d)%string.

(** [date.getDay()]: 0 is Sunday; 1970-01-01 was a Thursday. *)
Definition getDay (day : Date) : Z := (day + 4) mod 7.

End DateUtils.

(** ** [components/ScheduleTable.tsx]: the on-screen grid *)

Module ScheduleTable.

(** What one [<td>] of the slot columns is: an [EmptyCell] for the slot
    [time] (clicking it calls [onCellClick(day, time)]), or the cell of a
    booking, [colSpan] columns wide (clicking it calls
    [onBookingClick(booking.id)]). *)
Inductive Cell : Type :=
| EmptyCell (time : option string)
| BookingCell (booking : Booking) (colSpan : Z).

(** [const displayTimeSlots = timeSlots.slice(0, -1)] *)
Definition displayTimeSlots (timeSlots : list string) : list string :=
  Js.slice_0_m1 timeSlots.

(** The [<th>] labels of the slot columns:
    [displayTimeSlots.map(time => <th>{time}</th>)]. *)
Definition headerLabels (timeSlots : list string) : list string :=
  displayTimeSlots timeSlots.

(** [bookings.reduce((acc, booking) =>
      { (acc[booking.date] = acc[booking.date] || []).push(booking);
        return acc; }, {})],
    on a plain object: the own properties of [acc] are the groups. An own
    group is an array, which is truthy, and gets the booking pushed; where
    there is none and nothing is inherited, a new array is stored and gets
    the booking. For a date that names an inherited property,
    [acc[booking.date]] is the inherited value, which is truthy and has no
    [push]: the call throws a [TypeError], [None], and the table does not
    render. *)
Definition bookingsByDate (bookings : list Booking)
    : option (gmap string (list Booking)) :=
  foldl (fun acc booking =>
           acc ≫= fun groups =>
             match Js.getProperty groups (date booking) with
             | Js.Own group =>
                 Some (<[date booking := group ++ [booking]]> groups)
             | Js.Inherited => None
             | Js.Undefined => Some (<[date booking := [booking]]> groups)
             end)
        (Some ∅) bookings.

(** [const allDayBookings = bookingsByDate[formattedDate] || []]. For a
    [formattedDate] that names an inherited property, and no group, the
    value read is the inherited one, not an array, and
    [allDayBookings.map] of the next statement throws a [TypeError]:
    [None]. *)
Definition allDayBookings (byDate : gmap string (list Booking))
    (formattedDate : string) : option (list Booking) :=
  match Js.getProperty byDate formattedDate with
  | Js.Own group => Some group
  | Js.Inherited => None
  | Js.Undefined => Some []
  end.

(** [allDayBookings.map(b => b.notes).filter(Boolean).join('، ')], the
    last cell of the row. *)
Definition rowNotes (dayBookings : list Booking) : string :=
  Js.join "، " (Js.filter_Boolean (map Types.notes dayBookings)).

(** One turn of the loop at index [i]: the cell pushed and the next [i].
    The colour of a booking cell ([getBookingColor]) and the styling of
    the cells play no part in the layout and are left out. *)
Definition cellStep (timeSlots : list string) (dayBookings : list Booking)
    (i : Z) : Cell * Z :=
  let time := Js.get timeSlots i in
  match find (fun b => Js.strict_eq (Types.time b) time) dayBookings with
  | Some booking =>
      let startTimeIndex := i in
      let endTimeIndex := Js.indexOf timeSlots (endTime booking) in
      if endTimeIndex >? startTimeIndex then
        let span := endTimeIndex - startTimeIndex in
        (BookingCell booking span, i + span)
      else (EmptyCell time, i + 1)
  | None => (EmptyCell time, i + 1)
  end.

(** [for (let i = ...; i < displayTimeSlots.length; ) { ... }], from [i]
    on: the cells pushed. *)
Equations? cellsFrom (timeSlots : list string) (dayBookings : list Booking)
    (i : Z) : list Cell
    by wf (Z.to_nat (Js.len (displayTimeSlots timeSlots) - i)) lt :=
  cellsFrom timeSlots dayBookings i
    with decide (i < Js.len (displayTimeSlots timeSlots)) => {
    | left _ :=
        (cellStep timeSlots dayBookings i).1
          :: cellsFrom timeSlots dayBookings (cellStep timeSlots dayBookings i).2;
    | right _ := [] }.
Proof.
  unfold cellStep.
  destruct (find _ dayBookings) as [booking|]; simpl; [|lia].
  destruct (Z.gtb_spec (Js.indexOf timeSlots (endTime booking)) i); simpl; lia.
Qed.

(** The slot cells of one row: the loop run from [i = 0]. *)
Definition cells (timeSlots : list string) (dayBookings : list Booking)
    : list Cell :=
  cellsFrom timeSlots dayBookings 0.

(** The callback of [days.map] for the day with the date [formattedDate],
    given the memoised [bookingsByDate]: the slot cells of the row and its
    notes cell. *)
Definition tableRow (timeSlots : list string)
    (byDate : gmap string (list Booking)) (formattedDate : string)
    : option (list Cell * string) :=
  allDayBookings byDate formattedDate ≫= fun dayBookings =>
    Some (cells timeSlots dayBookings, rowNotes dayBookings).

(** The rows of [<tbody>]: [bookingsByDate] is computed, then a row for
    each day; [None] when the render throws. [formatToYYYYMMDD] is the
    helper of [utils/dateUtils.ts], which is not among the sources. *)
Definition tableRows (formatToYYYYMMDD : Date -> string)
    (timeSlots : list string) (bookings : list Booking) (days : list Date)
    : option (list (list Cell * string)) :=
  bookingsByDate bookings ≫= fun byDate =>
    mapM (fun day => tableRow timeSlots byDate (formatToYYYYMMDD day)) days.

(** The number of columns a cell takes: its [colSpan], one for a [<td>]
    that sets none. *)
Definition span (c : Cell) : Z :=
  match c with
  | EmptyCell _ => 1
  | BookingCell _ colSpan => colSpan
  end.

(** The table lays the cells of a row out from left to right, each after
    the columns of the one before: every cell with its first column. *)
Fixpoint place (start : Z) (row : list Cell) : list (Z * Cell) :=
  match row with
  | [] => []
  | c :: rest => (start, c) :: place (start + span c) rest
  end.

(** The placed cell [pc] covers column [j]. *)
Definition covers (pc : Z * Cell) (j : Z) : Prop :=
  pc.1 <= j < pc.1 + span pc.2.

#[global] Instance covers_dec pc j : Decision (covers pc j).
Proof. unfold covers. apply _. Defined.

Definition total_span (row : list Cell) : Z :=
  foldr (fun c acc => span c + acc) 0 row.

End ScheduleTable.

(** ** [App.tsx] *)

Module App.

(** *** Conflict check and save *)

Record ModalInfo : Type := mkModalInfo {
  isOpen : bool;
  bookingToEdit : option Booking;
  mi_date : option Date;
  mi_time : option string
}.

(** The pieces of component state that [handleSaveBooking] reads or
    writes. *)
Record State : Type := mkState {
  selectedHall : Hall;
  bookings : list Booking;
  hasUnsavedChanges : bool;
  modalInfo : ModalInfo
}.

(** How a handler ends: it returns, or it throws an [Error]. *)
Inductive Outcome : Type :=
| Returned
| Threw (message : string).

Definition conflictMessage : string :=
  "يوجد تعارض في الحجز. الرجاء اختيار وقت آخر.".

(** [const currentHall = modalInfo.bookingToEdit ?
      modalInfo.bookingToEdit.hallId : selectedHall] *)
Definition currentHall (st : State) : Hall :=
  match bookingToEdit (modalInfo st) with
  | Some edited => hallId edited
  | None => selectedHall st
  end.

(** The callback passed to [bookings.some]. *)
Definition conflictsWith (toEdit : option Booking) (hall : Hall)
    (bookingData : BookingData) (b : Booking) : bool :=
  if match toEdit with
     | Some edited => String.eqb (id b) (id edited)
     | None => false
     end
  then false
  else if bool_decide (hallId b = hall) && String.eqb (date b) (bd_date bookingData)
  then Js.lt (bd_time bookingData) (endTime b) && Js.gt (bd_endTime bookingData) (time b)
  else false.

(** [const hasConflict = bookings.some(b => ...)] *)
Definition hasConflict (st : State) (bookingData : BookingData) : bool :=
  existsb (conflictsWith (bookingToEdit (modalInfo st)) (currentHall st) bookingData)
          (bookings st).

(** [handleCloseModal]: [setModalInfo({ isOpen: false })]. *)
Definition closedModal : ModalInfo :=
  {| isOpen := false; bookingToEdit := None; mi_date := None; mi_time := None |}.

(** The argument of [setBookings] in [handleSaveBooking]: the edited
    booking replaced, or the new booking appended. [now] is the value of
    [new Date().toISOString()] when the handler runs. *)
Definition savedBookings (now : string) (bookingData : BookingData)
    (st : State) : list Booking :=
  match bookingToEdit (modalInfo st) with
  | Some edited =>
      map (fun b => if String.eqb (id b) (id edited)
                    then spread edited bookingData else b)
          (bookings st)
  | None =>
      let newBooking :=
        {| id := now;
           hallId := selectedHall st;
           date := bd_date bookingData;
           time := bd_time bookingData;
           endTime := bd_endTime bookingData;
           department := bd_department bookingData;
           notes := bd_notes bookingData |} in
      bookings st ++ [newBooking]
  end.

(** [handleSaveBooking]. The result is the state after the handler and the
    way it ended; the [throw] leaves before any setter is called. *)
Definition handleSaveBooking (now : string) (bookingData : BookingData)
    (st : State) : State * Outcome :=
  if hasConflict st bookingData then (st, Threw conflictMessage)
  else
    ({| selectedHall := selectedHall st;
        bookings := savedBookings now bookingData st;
        hasUnsavedChanges := true;
        modalInfo := closedModal |}, Returned).

(** [handleBookingClick]: open the modal on the booking with this id. *)
Definition handleBookingClick (bookingId : string) (st : State) : State :=
  match find (fun b => String.eqb (id b) bookingId) (bookings st) with
  | Some found =>
      {| selectedHall := selectedHall st;
         bookings := bookings st;
         hasUnsavedChanges := hasUnsavedChanges st;
         modalInfo := {| isOpen := true; bookingToEdit := Some found;
                         mi_date := None; mi_time := None |} |}
  | None => st
  end.

(** [handleCellClick]: open the modal for a new booking. *)
Definition handleCellClick (day : Date) (slot : string) (st : State) : State :=
  {| selectedHall := selectedHall st;
     bookings := bookings st;
     hasUnsavedChanges := hasUnsavedChanges st;
     modalInfo := {| isOpen := true; bookingToEdit := None;
                     mi_date := Some day; mi_time := Some slot |} |}.

(** [handleDeleteBooking]. *)
Definition handleDeleteBooking (st : State) : State :=
  match bookingToEdit (modalInfo st) with
  | Some edited =>
      {| selectedHall := selectedHall st;
         bookings := List.filter (fun b => negb (String.eqb (id b) (id edited)))
                                 (bookings st);
         hasUnsavedChanges := true;
         modalInfo := closedModal |}
  | None => st
  end.

(** Time slots in chronological order. *)
Definition timeSlots : list string :=
  ["07:30"; "08:00"; "09:00"; "10:00"; "11:00"; "12:00";
   "13:00"; "14:00"; "15:00"; "16:00"; "17:00"; "18:00"]%string.

(** *** Spreadsheet export *)

Module XLSX.

(** [XLSX.CellAddress] and [XLSX.Range]: [{ s: { r, c }, e: { r, c } }]. *)
Record CellAddress : Type := mkAddress { r : Z; c : Z }.
Record Range : Type := mkRange { s : CellAddress; e : CellAddress }.

End XLSX.

(** A value of the sheet: [string | number | null]. *)
Inductive SheetValue : Type :=
| VString (str : string)
| VNumber (n : Z)
| VNull.

#[global] Instance SheetValue_eq_dec : EqDecision SheetValue.
Proof. solve_decision. Defined.

(** [const displayTimeSlots = timeSlots.slice(0, -1)] *)
Definition displayTimeSlots (slots : list string) : list string :=
  Js.slice_0_m1 slots.

Definition headerRow1 : list SheetValue :=
  [VNull; VNull; VNull; VString "من / الى"].

Definition headerRow2 (slots : list string) : list SheetValue :=
  [VString "م"; VString "اليوم"; VString "التاريخ"]
    ++ map VString (displayTimeSlots slots) ++ [VString "الملاحظات"].

(** One turn of the loop over the slots of a day at index [i]: the values
    pushed on [row], the ranges pushed on [merges], and the next [i]. *)
Definition exportStep (slots : list string) (dayBookings : list Booking)
    (rowIndex i : Z) : list SheetValue * list XLSX.Range * Z :=
  let time := Js.get slots i in
  match find (fun b => Js.strict_eq (Types.time b) time) dayBookings with
  | Some booking =>
      let startTimeIndex := Js.indexOf slots (Types.time booking) in
      let endTimeIndex := Js.indexOf slots (endTime booking) in
      let span := if endTimeIndex >? startTimeIndex
                  then endTimeIndex - startTimeIndex else 1 in
      (VString (department booking) :: replicate (Z.to_nat (span - 1)) VNull,
       if span >? 1
       then [XLSX.mkRange (XLSX.mkAddress rowIndex (3 + i))
                          (XLSX.mkAddress rowIndex (3 + i + span - 1))]
       else [],
       i + span)
  | None => ([VString EmptyString], [], i + 1)
  end.

(** [for (let i = ...; i < displayTimeSlots.length; ) { ... }], from [i]
    on: what is pushed on [row] and on [merges]. *)
Equations? exportFrom (slots : list string) (dayBookings : list Booking)
    (rowIndex i : Z) : list SheetValue * list XLSX.Range
    by wf (Z.to_nat (Js.len (displayTimeSlots slots) - i)) lt :=
  exportFrom slots dayBookings rowIndex i
    with decide (i < Js.len (displayTimeSlots slots)) => {
    | left _ :=
        ((exportStep slots dayBookings rowIndex i).1.1
           ++ (exportFrom slots dayBookings rowIndex
                 (exportStep slots dayBookings rowIndex i).2).1,
         (exportStep slots dayBookings rowIndex i).1.2
           ++ (exportFrom slots dayBookings rowIndex
                 (exportStep slots dayBookings rowIndex i).2).2);
    | right _ := ([], []) }.
Proof.
  all: unfold exportStep;
    destruct (find _ dayBookings) as [booking|]; simpl; [|lia];
    destruct (Z.gtb_spec (Js.indexOf slots (endTime booking))
                         (Js.indexOf slots (Types.time booking))); lia.
Qed.

(** The slot columns of the row of one day, and its merge ranges. *)
Definition exportSlots (slots : list string) (dayBookings : list Booking)
    (rowIndex : Z) : list SheetValue * list XLSX.Range :=
  exportFrom slots dayBookings rowIndex 0.

Definition arabicDayNames : list (string * string) :=
  [("Saturday", "السبت"); ("Sunday", "الاحد"); ("Monday", "الاثنين");
   ("Tuesday", "الثلاثاء"); ("Wednesday", "الاربعاء"); ("Thursday", "الخميس");
   ("Friday", "الجمعة")]%string.

(** [date.toLocaleString('en-US', { weekday: 'long' })] *)
Definition weekdayLong (day : Date) : string :=
  nth (Z.to_nat (DateUtils.getDay day))
      ["Sunday"; "Monday"; "Tuesday"; "Wednesday"; "Thursday"; "Friday";
       "Saturday"]%string EmptyString.

(** [arabicDayNames[dayName] || dayName] *)
Definition getArabicDayName (day : Date) : string :=
  let dayName := weekdayLong day in
  match find (fun kv => String.eqb kv.1 dayName) arabicDayNames with
  | Some kv => if String.eqb kv.2 EmptyString then dayName else kv.2
  | None => dayName
  end.

(** *** Startup load *)

(** What [localStorage.getItem('hallBookings')] does: it throws, it returns
    [null], or it returns the stored string. *)
Inductive StorageRead : Type :=
| GetItemThrows
| NoItem
| Item (savedBookings : string).

#[global] Instance StorageRead_eq_dec : EqDecision StorageRead.
Proof. solve_decision. Defined.

Definition loadErrorMessage : string :=
  "Could not load bookings from localStorage".

Section WithDateUtils.

(** The helpers of [utils/dateUtils.ts], which is not among the sources. *)
Variable formatToYYYYMMDD : Date -> string.
Variable formatDateDisplay : Date -> string.

(** [JSON.parse] at the type the code gives its result; [None] when it
    throws. *)
Variable JSON_parse : string -> option (list Booking).

(** The row of the day [day], the [index]-th of the month, written at row
    [rowIndex] of the sheet. *)
Definition exportRow (filteredBookings : list Booking) (rowIndex index : Z)
    (day : Date) : list SheetValue * list XLSX.Range :=
  let formattedDate := formatToYYYYMMDD day in
  let dayBookings :=
    List.filter (fun b => String.eqb (date b) formattedDate) filteredBookings in
  let notes := Js.join "، " (Js.filter_Boolean (map Types.notes dayBookings)) in
  let slotColumns := exportSlots timeSlots dayBookings rowIndex in
  ([VNumber (index + 1); VString (getArabicDayName day);
    VString (formatDateDisplay day)] ++ slotColumns.1 ++ [VString notes],
   slotColumns.2).

(** [daysInMonth.forEach((day, index) => { ... })], from [index] on. *)
Fixpoint exportDays (filteredBookings : list Booking) (days : list Date)
    (index : Z) (sheet : list (list SheetValue) * list XLSX.Range)
    : list (list SheetValue) * list XLSX.Range :=
  match days with
  | [] => sheet
  | day :: rest =>
      let rowIndex := Js.len sheet.1 in
      let row := exportRow filteredBookings rowIndex index day in
      exportDays filteredBookings rest (index + 1)
                 (sheet.1 ++ [row.1], sheet.2 ++ row.2)
  end.

(** [handleExportToExcel], up to the data handed to the [XLSX] library:
    [sheetData] and [merges]. *)
Definition handleExportToExcel (title : string) (daysInMonth : list Date)
    (st : State) : list (list SheetValue) * list XLSX.Range :=
  let sheetData := [[VString title]; []; headerRow1; headerRow2 timeSlots] in
  let merges :=
    [XLSX.mkRange (XLSX.mkAddress 0 0)
                  (XLSX.mkAddress 0 (Js.len (headerRow2 timeSlots) - 1));
     XLSX.mkRange (XLSX.mkAddress 2 3)
                  (XLSX.mkAddress 2 (3 + Js.len (displayTimeSlots timeSlots) - 1))] in
  let filteredBookings :=
    List.filter (fun b => bool_decide (hallId b = selectedHall st)) (bookings st) in
  exportDays filteredBookings daysInMonth 0 (sheetData, merges).

(** Function to generate dynamic initial bookings for the current month.
    [today] is the day [new Date()] gives when the function runs. *)
Definition generateInitialBookings (today : Date) : list Booking :=
  let tomorrow := today + 1 in
  let dayAfter := today + 2 in
  [ {| id := "1"; hallId := AlWaha; date := formatToYYYYMMDD today;
       time := "09:00"; endTime := "11:00";
       department := "قسم الموارد البشرية"; notes := "مقابلات توظيف" |};
    {| id := "2"; hallId := AlWaha; date := formatToYYYYMMDD tomorrow;
       time := "11:00"; endTime := "12:00";
       department := "قسم تكنولوجيا المعلومات"; notes := "اجتماع فريق الدعم" |};
    {| id := "3"; hallId := AlDana; date := formatToYYYYMMDD dayAfter;
       time := "14:00"; endTime := "16:00";
       department := "قسم التسويق";
       notes := "ورشة عمل عن الحملات الإعلانية" |} ].

(** The initialiser of the [bookings] state: the bookings the session
    starts with, and what it writes with [console.error]. *)
Definition loadBookings (today : Date) (read : StorageRead)
    : list Booking * list string :=
  match read with
  | GetItemThrows => (generateInitialBookings today, [loadErrorMessage])
  | NoItem => (generateInitialBookings today, [])
  | Item savedBookings =>
      if String.eqb savedBookings EmptyString
      then (generateInitialBookings today, [])
      else match JSON_parse savedBookings with
           | Some parsed => (parsed, [])
           | None => (generateInitialBookings today, [loadErrorMessage])
           end
  end.

End WithDateUtils.

End App.

(** ** Vocabulary of the properties *)

Module Invariants.

(** The overlap rule of the half-open intervals of two bookings:
    [a.time < b.endTime] and [a.endTime > b.time]. *)
Definition overlap (a b : Booking) : Prop :=
  Js.lt (time a) (endTime b) = true /\ Js.gt (endTime a) (time b) = true.

#[global] Instance overlap_dec a b : Decision (overlap a b).
Proof. unfold overlap. apply _. Defined.

(** The interval-disjointness invariant of a booking set: no two distinct
    bookings of one hall and one date overlap. *)
Definition disjoint (set : list Booking) : Prop :=
  forall a b, a ∈ set -> b ∈ set -> a <> b ->
    hallId a = hallId b -> date a = date b -> ~ overlap a b.

(** The booking [other] is not the one being edited. *)
Definition not_excluded (toEdit : option Booking) (other : Booking) : Prop :=
  forall edited, toEdit = Some edited -> id other <> id edited.

(** [read] finds the storage absent or unreadable. *)
Definition absent_or_unreadable (read : App.StorageRead) : Prop :=
  read = App.GetItemThrows \/ read = App.NoItem.

#[global] Instance absent_or_unreadable_dec read :
  Decision (absent_or_unreadable read).
Proof. unfold absent_or_unreadable. apply _. Defined.

(** The last label of the grid of [App.tsx], the end of the day. *)
Definition sentinel : string := "18:00".

(** The position of a label in a grid is [k]. *)
Definition at_position (grid : list string) (k : nat) (label : string) : Prop :=
  grid !! k = Some label.

(** The slot a cell of the grid stands for: the slot of an empty cell, the
    start of the booking of a booking cell. *)
Definition cellSlot (c : ScheduleTable.Cell) : option string :=
  match c with
  | ScheduleTable.EmptyCell slot => slot
  | ScheduleTable.BookingCell booking _ => Some (time booking)
  end.

(** The slot columns of the sheet that show a cell of the grid: an empty
    string for an empty cell; for a booking cell the department, followed
    by a [null] for each further column of its span. *)
Definition sheetValues (c : ScheduleTable.Cell) : list App.SheetValue :=
  match c with
  | ScheduleTable.EmptyCell _ => [App.VString EmptyString]
  | ScheduleTable.BookingCell booking colSpan =>
      App.VString (department booking)
        :: replicate (Z.to_nat (colSpan - 1)) App.VNull
  end.

(** The merge ranges of the sheet that show the cells of a row of the grid:
    one for each booking cell wider than a column, over its columns. The
    slot columns of the sheet start at column 3. *)
Fixpoint sheetMerges (rowIndex : Z) (placed : list (Z * ScheduleTable.Cell))
    : list App.XLSX.Range :=
  match placed with
  | [] => []
  | (start, ScheduleTable.BookingCell _ colSpan) :: rest =>
      (if colSpan >? 1
       then [App.XLSX.mkRange
               (App.XLSX.mkAddress rowIndex (3 + start))
               (App.XLSX.mkAddress rowIndex (3 + start + colSpan - 1))]
       else [])
        ++ sheetMerges rowIndex rest
  | (_, ScheduleTable.EmptyCell _) :: rest => sheetMerges rowIndex rest
  end.

(** The slot columns and merge ranges that show a row of the grid. *)
Definition sheetOfGrid (rowIndex : Z) (row : list ScheduleTable.Cell)
    : list App.SheetValue * list App.XLSX.Range :=
  (row ≫= sheetValues, sheetMerges rowIndex (ScheduleTable.place 0 row)).

(** Every booking that starts at a display slot ends at a later position of
    the grid. *)
Definition ends_later (slots : list string) (dayBookings : list Booking) : Prop :=
  forall (b : Booking) (n : nat),
    b ∈ dayBookings ->
    App.displayTimeSlots slots !! n = Some (time b) ->
    Z.of_nat n < Js.indexOf slots (endTime b).

End Invariants.

(** ** Sample data *)

Module Samples.

(** The scenario of one hall on 2025-03-10: booking A from 09:00 to 11:00
    is in the set, and the form asks for 10:00 to 12:00 on the same day. *)
Definition bookingA : Booking :=
  {| id := "2025-03-09T08:15:00.000Z"; hallId := AlWaha; date := "2025-03-10";
     time := "09:00"; endTime := "11:00";
     department := "HR"; notes := "interviews" |}.

Definition bookingC : Booking :=
  {| id := "2025-03-09T08:20:00.000Z"; hallId := AlWaha; date := "2025-03-10";
     time := "11:00"; endTime := "12:00";
     department := "IT"; notes := "support" |}.

Definition formB : BookingData :=
  {| bd_date := "2025-03-10"; bd_time := "10:00"; bd_endTime := "12:00";
     bd_department := "Marketing"; bd_notes := "workshop" |}.

(** The booking the form would add at [2025-03-09T09:00:00.000Z]. *)
Definition bookingB : Booking :=
  {| id := "2025-03-09T09:00:00.000Z"; hallId := AlWaha; date := "2025-03-10";
     time := "10:00"; endTime := "12:00";
     department := "Marketing"; notes := "workshop" |}.

Definition formA' : BookingData :=
  {| bd_date := "2025-03-10"; bd_time := "08:00"; bd_endTime := "10:00";
     bd_department := "HR"; bd_notes := "interviews, earlier" |}.

(** The modal is open for a new booking in the hall of A. *)
Definition creating : App.State :=
  {| App.selectedHall := AlWaha;
     App.bookings := [bookingA];
     App.hasUnsavedChanges := true;
     App.modalInfo := {| App.isOpen := true; App.bookingToEdit := None;
                         App.mi_date := Some 20157;
                         App.mi_time := Some "10:00" |} |}.

(** The modal is open on booking A, with C in the set as well. *)
Definition editingA : App.State :=
  {| App.selectedHall := AlDana;
     App.bookings := [bookingA; bookingC];
     App.hasUnsavedChanges := false;
     App.modalInfo := {| App.isOpen := true; App.bookingToEdit := Some bookingA;
                         App.mi_date := None; App.mi_time := None |} |}.

(** A booking that ends before it starts. *)
Definition inverted : Booking :=
  {| id := "7"; hallId := AlWaha; date := "2025-03-10";
     time := "10:00"; endTime := "09:00";
     department := "HR"; notes := "interviews" |}.

(** A booking whose end is not a label of the grid. *)
Definition unmatched : Booking :=
  {| id := "8"; hallId := AlWaha; date := "2025-03-10";
     time := "14:00"; endTime := "15:30";
     department := "IT"; notes := "support" |}.

End Samples.

(** ** The rest of [App.tsx] and of the components *)

Module JsNum.

(** [String(n)] and [`${n}`] for an integer [n] below the size where
    JavaScript switches to exponent notation. *)
Definition toString (n : Z) : string :=
  DecimalString.NilZero.string_of_int (Z.to_int n).

(** [s.padStart(targetLength, '0')]. *)
Definition padStart0 (targetLength : nat) (s : string) : string :=
  (String.concat EmptyString
     (replicate (targetLength - String.length s)%nat "0"%string) ++ s)%string.

(** [s.startsWith(prefix)]. *)
Definition startsWith (s prefix : string) : bool := String.prefix prefix s.

(** [a % b] on integers: the remainder has the sign of [a]. *)
Definition rem (a b : Z) : Z := Z.rem a b.

End JsNum.

Module AppModal.

Section WithDateUtils.

(** The helper of [utils/dateUtils.ts], which is not among the sources. *)
Variable formatToYYYYMMDD : Date -> string.

(** [getModalInitialData]: the fields of the booking being edited, or the
    clicked day and slot with the next label of the grid as the end;
    [None] is [null]. A [modalInfo.time] that is the empty string is
    falsy. The read [timeSlots[startTimeIndex + 1]] is in range by the test
    before it. *)
Definition getModalInitialData (st : App.State) : option BookingData :=
  match App.bookingToEdit (App.modalInfo st) with
  | Some edited =>
      Some {| bd_date := date edited;
              bd_time := time edited;
              bd_endTime := endTime edited;
              bd_department := department edited;
              bd_notes := notes edited |}
  | None =>
      match App.mi_date (App.modalInfo st), App.mi_time (App.modalInfo st) with
      | Some day, Some slot =>
          if String.eqb slot EmptyString then None
          else
            let startTime := slot in
            let startTimeIndex := Js.indexOf App.timeSlots startTime in
            let defaultEndTime :=
              if negb (startTimeIndex =? -1)
                 && (startTimeIndex + 1 <? Js.len App.timeSlots)
              then default EmptyString (Js.get App.timeSlots (startTimeIndex + 1))
              else EmptyString in
            Some {| bd_date := formatToYYYYMMDD day;
                    bd_time := slot;
                    bd_endTime := defaultEndTime;
                    bd_department := EmptyString;
                    bd_notes := EmptyString |}
      | _, _ => None
      end
  end.

End WithDateUtils.

End AppModal.

Module AppStats.

(** [const yearMonthPrefix = `${year}-${monthString}`], with [year] the
    value of [currentDate.getFullYear()] and [month0] the value of
    [currentDate.getMonth()], which counts from 0. *)
Definition yearMonthPrefix (year month0 : Z) : string :=
  let month := month0 + 1 in
  let monthString := JsNum.padStart0 2 (JsNum.toString month) in
  (JsNum.toString year ++ "-" ++ monthString)%string.

(** [monthlyBookingCounts]: an object with a count for each hall, both 0
    at first; [counts[booking.hallId]++] for the bookings of the month. *)
Definition monthlyBookingCounts (bookings : list Booking) (year month0 : Z)
    : Hall -> Z :=
  foldl (fun counts booking =>
           if JsNum.startsWith (date booking) (yearMonthPrefix year month0)
           then fun hall => if decide (hall = hallId booking)
                            then counts hall + 1 else counts hall
           else counts)
        (fun _ => 0) bookings.

(** [Object.values(monthlyBookingCounts).reduce((sum, count) => sum + count, 0)] *)
Definition totalMonthlyBookings (counts : Hall -> Z) : Z :=
  foldl (fun sum count => sum + count) 0 [counts AlWaha; counts AlDana].

(** [const wahaTotal = bookings.filter(b => b.hallId === Hall.AlWaha).length] *)
Definition wahaTotal (bookings : list Booking) : Z :=
  Js.len (List.filter (fun b => bool_decide (hallId b = AlWaha)) bookings).

(** [const danaTotal = bookings.filter(b => b.hallId === Hall.AlDana).length] *)
Definition danaTotal (bookings : list Booking) : Z :=
  Js.len (List.filter (fun b => bool_decide (hallId b = AlDana)) bookings).

(** The ids of [halls], in its order. *)
Definition halls : list Hall := [AlWaha; AlDana].

End AppStats.

(** ** [components/Dashboard.tsx] *)

Module Dashboard.

#[global] Instance Hall_countable : Countable Hall :=
  inj_countable'
    (fun hall => match hall with AlWaha => true | AlDana => false end)
    (fun b : bool => if b then AlWaha else AlDana)
    (fun hall => match hall with AlWaha => eq_refl | AlDana => eq_refl end).

(** [const totalBookings = bookings.length] *)
Definition totalBookings (bookings : list Booking) : Z := Js.len bookings.

(** [halls.forEach(h => byHall[h.id] = 0);
     bookings.forEach(b => { byHall[b.hallId] = (byHall[b.hallId] || 0) + 1; })],
    with [halls] given by the ids of its entries. *)
Definition byHall (halls : list Hall) (bookings : list Booking) : gmap Hall Z :=
  foldl (fun acc b => <[hallId b := default 0 (acc !! hallId b) + 1]> acc)
        (foldl (fun acc h => <[h := 0]> acc) ∅ halls)
        bookings.

End Dashboard.

(** ** [components/ScheduleTable.tsx]: the colours of the bookings *)

Module BookingColors.

Record Color : Type := mkColor { bg : string; hover : string; text : string }.

#[global] Instance Color_eq_dec : EqDecision Color.
Proof. solve_decision. Defined.

Definition bookingColors : list Color :=
  [ mkColor "bg-blue-200" "hover:bg-blue-300" "text-blue-800";
    mkColor "bg-teal-200" "hover:bg-teal-300" "text-teal-800";
    mkColor "bg-green-200" "hover:bg-green-300" "text-green-800";
    mkColor "bg-indigo-200" "hover:bg-indigo-300" "text-indigo-800";
    mkColor "bg-purple-200" "hover:bg-purple-300" "text-purple-800";
    mkColor "bg-pink-200" "hover:bg-pink-300" "text-pink-800";
    mkColor "bg-sky-200" "hover:bg-sky-300" "text-sky-800";
    mkColor "bg-cyan-200" "hover:bg-cyan-300" "text-cyan-800";
    mkColor "bg-emerald-200" "hover:bg-emerald-300" "text-emerald-800";
    mkColor "bg-rose-200" "hover:bg-rose-300" "text-rose-800" ].

(** The two refs of the component: [bookingColorMap.current], a [Map] from
    booking ids to entries of [bookingColors] (an entry read out of range
    would be [undefined], [None]), and [lastColorIndex.current]. *)
Record Refs : Type := mkRefs {
  bookingColorMap : gmap string (option Color);
  lastColorIndex : Z
}.

(** [useRef(new Map())] and [useRef(-1)]. *)
Definition initialRefs : Refs :=
  {| bookingColorMap := ∅; lastColorIndex := -1 |}.

(** [getBookingColor]: the colour returned ([None] for [undefined]) and the
    refs after the call. *)
Definition getBookingColor (bookingId : string) (refs : Refs)
    : option Color * Refs :=
  let refs' :=
    match bookingColorMap refs !! bookingId with
    | Some _ => refs
    | None =>
        let last := JsNum.rem (lastColorIndex refs + 1) (Js.len bookingColors) in
        {| bookingColorMap :=
             <[bookingId := Js.get bookingColors last]> (bookingColorMap refs);
           lastColorIndex := last |}
    end in
  (match bookingColorMap refs' !! bookingId with
   | Some color => color
   | None => None
   end, refs').

(** The refs after the colours of the bookings [bookingIds] were asked
    for, one after the other. *)
Definition askAll (bookingIds : list string) (refs : Refs) : Refs :=
  foldl (fun refs bookingId => (getBookingColor bookingId refs).2) refs bookingIds.

(** What the calls keep true of the refs: the index stays one of the
    palette or the initial [-1], and every id of the map has a colour of
    the palette. *)
Definition refs_ok (refs : Refs) : Prop :=
  -1 <= lastColorIndex refs < 10 /\
  forall bookingId stored,
    bookingColorMap refs !! bookingId = Some stored ->
    exists color, stored = Some color /\ color ∈ bookingColors.

End BookingColors.

(** ** Vocabulary of the further properties *)

Module Layout.

(** The ranges [ranges] lie on the row [row], each at least two columns
    wide, from left to right without overlap, between the columns [lo] and
    [hi]. *)
Fixpoint merges_in_row (row lo hi : Z) (ranges : list App.XLSX.Range) : Prop :=
  match ranges with
  | [] => True
  | range :: rest =>
      App.XLSX.r (App.XLSX.s range) = row /\
      App.XLSX.r (App.XLSX.e range) = row /\
      lo <= App.XLSX.c (App.XLSX.s range) /\
      App.XLSX.c (App.XLSX.s range) < App.XLSX.c (App.XLSX.e range) /\
      App.XLSX.c (App.XLSX.e range) <= hi /\
      merges_in_row row (App.XLSX.c (App.XLSX.e range) + 1) hi rest
  end.

(** In the sheet row [cells], the first column of [range] holds a string
    and the other columns of [range] hold [null]. *)
Definition merged_cells_blank (cells : list App.SheetValue)
    (range : App.XLSX.Range) : Prop :=
  (exists str, Js.get cells (App.XLSX.c (App.XLSX.s range)) = Some (App.VString str)) /\
  forall col, App.XLSX.c (App.XLSX.s range) < col <= App.XLSX.c (App.XLSX.e range) ->
              Js.get cells col = Some App.VNull.

(** The label of every booking's start and end is a label of the grid of
    [App.tsx], the end at a later position than the start. *)
Definition on_grid (dayBookings : list Booking) : Prop :=
  forall b, b ∈ dayBookings ->
    exists s e : nat,
      App.timeSlots !! s = Some (time b) /\
      App.timeSlots !! e = Some (endTime b) /\ (s < e)%nat.

(** No two distinct bookings of the list overlap. *)
Definition no_overlap (dayBookings : list Booking) : Prop :=
  forall a b, a ∈ dayBookings -> b ∈ dayBookings -> a <> b ->
    ~ Invariants.overlap a b.

(** The rows of the days [days], the first of them the [index]-th of the
    month and written at the sheet row [rowIndex]: each row with its merge
    ranges. *)
Fixpoint dayRows (formatToYYYYMMDD formatDateDisplay : Date -> string)
    (filteredBookings : list Booking) (days : list Date) (rowIndex index : Z)
    : list (list App.SheetValue * list App.XLSX.Range) :=
  match days with
  | [] => []
  | day :: rest =>
      App.exportRow formatToYYYYMMDD formatDateDisplay filteredBookings
                    rowIndex index day
        :: dayRows formatToYYYYMMDD formatDateDisplay filteredBookings rest
                   (rowIndex + 1) (index + 1)
  end.

(** The load does not get bookings out of the storage: the read throws,
    there is no item, the item is the empty string, or [JSON.parse] throws
    on it. *)
Definition falls_back (JSON_parse : string -> option (list Booking))
    (read : App.StorageRead) : Prop :=
  match read with
  | App.GetItemThrows | App.NoItem => True
  | App.Item savedBookings =>
      savedBookings = EmptyString \/ JSON_parse savedBookings = None
  end.

(** The bookings shown on the date [formattedDate]: those of the selected
    hall, [bookings.filter(b => b.hallId === selectedHall)], which [App]
    passes to the table and to the export, with that date,
    [filteredBookings.filter(b => b.date === formattedDate)], in the order
    of the set. The export works on this list; so does the row of the date
    in a table that renders. *)
Definition shownOn (formattedDate : string) (st : App.State) : list Booking :=
  List.filter (fun b => String.eqb (date b) formattedDate)
    (List.filter (fun b => bool_decide (hallId b = App.selectedHall st))
                 (App.bookings st)).

(** No booking of the list has a date that names an inherited property. *)
Definition plain_dates (bookings : list Booking) : Prop :=
  forall b, b ∈ bookings -> Js.inherited (date b) = false.

(** No day of the list has a formatted date that names an inherited
    property. *)
Definition plain_days (formatToYYYYMMDD : Date -> string) (days : list Date)
    : Prop :=
  forall day, day ∈ days -> Js.inherited (formatToYYYYMMDD day) = false.

(** The state with another list of bookings. *)
Definition withBookings (set : list Booking) (st : App.State) : App.State :=
  {| App.selectedHall := App.selectedHall st;
     App.bookings := set;
     App.hasUnsavedChanges := App.hasUnsavedChanges st;
     App.modalInfo := App.modalInfo st |}.

(** The booking a save in create mode appends. *)
Definition created (now : string) (form : BookingData) (st : App.State)
    : Booking :=
  {| id := now; hallId := App.selectedHall st; date := bd_date form;
     time := bd_time form; endTime := bd_endTime form;
     department := bd_department form; notes := bd_notes form |}.

(** The form filled with the fields of a booking. *)
Definition formOf (b : Booking) : BookingData :=
  {| bd_date := date b; bd_time := time b; bd_endTime := endTime b;
     bd_department := department b; bd_notes := notes b |}.

End Layout.

(** ** The handlers as the events of a session *)

Module Session.

(** What the user does: a click on an empty cell, a click on a booking,
    closing the modal, saving the form (at the instant [now]), deleting
    the booking of the modal. *)
Inductive Event : Type :=
| CellClick (day : Date) (slot : string)
| BookingClick (bookingId : string)
| CloseModal
| Save (now : string) (bookingData : BookingData)
| Delete.

(** [handleCloseModal]. *)
Definition handleCloseModal (st : App.State) : App.State :=
  {| App.selectedHall := App.selectedHall st;
     App.bookings := App.bookings st;
     App.hasUnsavedChanges := App.hasUnsavedChanges st;
     App.modalInfo := App.closedModal |}.

(** The state after the handler of an event; a save that throws leaves
    the state as it is. *)
Definition handle (st : App.State) (ev : Event) : App.State :=
  match ev with
  | CellClick day slot => App.handleCellClick day slot st
  | BookingClick bookingId => App.handleBookingClick bookingId st
  | CloseModal => handleCloseModal st
  | Save now bookingData => (App.handleSaveBooking now bookingData st).1
  | Delete => App.handleDeleteBooking st
  end.

Definition session (st : App.State) (events : list Event) : App.State :=
  foldl handle st events.

End Session.

(** * Properties *)

(** ** String order and array search *)

Section JsFacts.

Lemma compare_refl (s : string) : String.compare s s = Eq.
Proof.
  pose proof (String.compare_antisym s s) as H.
  destruct (String.compare s s); simpl in H; congruence.
Qed.

Lemma lt_irrefl (s : string) : Js.lt s s = false.
Proof. unfold Js.lt, String.ltb. by rewrite compare_refl. Qed.

Lemma gt_irrefl (s : string) : Js.gt s s = false.
Proof. apply lt_irrefl. Qed.

Lemma gt_lt (a b : string) : Js.gt a b = Js.lt b a.
Proof. reflexivity. Qed.

End JsFacts.

(** ** The conflict check *)

Section ConflictCheck.

Import App Invariants.

Lemma conflictsWith_true toEdit hall data b :
  conflictsWith toEdit hall data b = true <->
  not_excluded toEdit b /\ hallId b = hall /\ date b = bd_date data /\
  Js.lt (bd_time data) (endTime b) = true /\
  Js.gt (bd_endTime data) (time b) = true.
Proof.
  unfold conflictsWith, not_excluded. split.
  - destruct toEdit as [edited|].
    + destruct (String.eqb_spec (id b) (id edited)) as [Heq|Hne]; [done|].
      destruct (bool_decide_reflect (hallId b = hall)); simpl; [|done].
      destruct (String.eqb_spec (date b) (bd_date data)); [|done].
      intros [Hlt Hgt]%andb_true_iff. repeat split; try done.
      intros ? [= <-]. done.
    + destruct (bool_decide_reflect (hallId b = hall)); simpl; [|done].
      destruct (String.eqb_spec (date b) (bd_date data)); [|done].
      intros [Hlt Hgt]%andb_true_iff. repeat split; done.
  - intros (Hex & Hhall & Hdate & Hlt & Hgt).
    assert (match toEdit with
            | Some edited => String.eqb (id b) (id edited)
            | None => false
            end = false) as ->.
    { destruct toEdit as [edited|]; [|done].
      apply String.eqb_neq. by apply Hex. }
    rewrite bool_decide_eq_true_2 by done.
    rewrite (proj2 (String.eqb_eq _ _) Hdate). simpl.
    by rewrite Hlt, Hgt.
Qed.

Lemma hasConflict_true (st : State) (candidate : BookingData) :
  hasConflict st candidate = true <->
  exists other,
    other ∈ bookings st /\
    not_excluded (bookingToEdit (modalInfo st)) other /\
    hallId other = currentHall st /\
    date other = bd_date candidate /\
    Js.lt (bd_time candidate) (endTime other) = true /\
    Js.gt (bd_endTime candidate) (time other) = true.
Proof.
  unfold hasConflict. rewrite existsb_exists. split.
  - intros (other & Hin & Hc). exists other.
    split; [by apply list_elem_of_In | by apply conflictsWith_true].
  - intros (other & Hin & Hc). exists other.
    split; [by apply list_elem_of_In | by apply conflictsWith_true].
Qed.

Lemma conflictsWith_touching toEdit hall (candidate : BookingData) other :
  bd_endTime candidate = time other \/ bd_time candidate = endTime other ->
  conflictsWith toEdit hall candidate other = false.
Proof.
  intros Htouch.
  destruct (conflictsWith _ _ candidate other) eqn:Hc; [|done].
  apply conflictsWith_true in Hc as (_ & _ & _ & Hlt & Hgt).
  destruct Htouch as [He|He]; rewrite He in *.
  - by rewrite gt_irrefl in Hgt.
  - by rewrite lt_irrefl in Hlt.
Qed.

(** C2. The conflict check answers [true] exactly when some booking of the
    set that is not the one being edited has the hall and the date of the
    candidate and satisfies [candidate.time < other.endTime] and
    [candidate.endTime > other.time]; a booking that the candidate only
    touches ([candidate.endTime = other.time] or
    [candidate.time = other.endTime]) is never counted as a conflict. *)
Theorem hasConflict_iff_overlap (st : State) (candidate : BookingData) :
  (hasConflict st candidate = true <->
   exists other,
     other ∈ bookings st /\
     not_excluded (bookingToEdit (modalInfo st)) other /\
     hallId other = currentHall st /\
     date other = bd_date candidate /\
     Js.lt (bd_time candidate) (endTime other) = true /\
     Js.gt (bd_endTime candidate) (time other) = true) /\
  (forall other,
     bd_endTime candidate = time other \/ bd_time candidate = endTime other ->
     conflictsWith (bookingToEdit (modalInfo st)) (currentHall st)
                   candidate other = false).
Proof.
  split; [apply hasConflict_true|]. intros other. apply conflictsWith_touching.
Qed.

(** C6. Editing a booking to its own time range: with the booking as the
    only one of the set and as the one being edited, the conflict check
    answers [false]. *)
Theorem edit_unchanged_range_no_conflict (X : Booking) (hall : Hall)
    (unsaved : bool) (department notes : string) :
  hasConflict
    {| selectedHall := hall;
       bookings := [X];
       hasUnsavedChanges := unsaved;
       modalInfo := {| isOpen := true; bookingToEdit := Some X;
                       mi_date := None; mi_time := None |} |}
    {| bd_date := date X; bd_time := time X; bd_endTime := endTime X;
       bd_department := department; bd_notes := notes |} = false.
Proof.
  unfold hasConflict, conflictsWith. simpl.
  by rewrite String.eqb_refl.
Qed.

End ConflictCheck.

(** ** Saving a booking *)

Section Save.

Import App Invariants.

Lemma hasConflict_false st data other :
  hasConflict st data = false ->
  other ∈ bookings st ->
  not_excluded (bookingToEdit (modalInfo st)) other ->
  hallId other = currentHall st ->
  date other = bd_date data ->
  ~ (Js.lt (bd_time data) (endTime other) = true /\
     Js.gt (bd_endTime data) (time other) = true).
Proof.
  intros Hno Hin Hex Hhall Hdate [Hlt Hgt].
  assert (hasConflict st data = true) as Hyes; [|congruence].
  apply hasConflict_true. by exists other.
Qed.

Lemma overlap_sym a b : overlap a b -> overlap b a.
Proof. unfold overlap, Js.gt, Js.lt. tauto. Qed.

(** A save that passes the conflict check keeps the booking set free of
    overlaps. *)
Lemma savedBookings_disjoint now data st :
  disjoint (bookings st) ->
  hasConflict st data = false ->
  disjoint (savedBookings now data st).
Proof.
  intros Hinv Hno. unfold savedBookings.
  destruct (bookingToEdit (modalInfo st)) as [edited|] eqn:Hedit.
  - (* update *)
    assert (forall x, x ∈ bookings st -> id x <> id edited ->
              hallId (spread edited data) = hallId x ->
              date (spread edited data) = date x ->
              ~ overlap (spread edited data) x) as Hnew.
    { intros x Hx Hid Hhall Hdate Hov.
      apply (hasConflict_false st data x Hno Hx); [| | by symmetry | exact Hov].
      - intros e He. rewrite Hedit in He. by injection He as <-.
      - unfold currentHall. rewrite Hedit. by symmetry. }
    intros a b Ha Hb.
    change (map ?f ?l) with (f <$> l) in Ha, Hb.
    apply list_elem_of_fmap in Ha as (a0 & -> & Ha0).
    apply list_elem_of_fmap in Hb as (b0 & -> & Hb0).
    destruct (String.eqb_spec (id a0) (id edited)) as [Hae|Hae];
      destruct (String.eqb_spec (id b0) (id edited)) as [Hbe|Hbe].
    + done.
    + intros _ Hhall Hdate. by apply (Hnew b0).
    + intros _ Hhall Hdate Hov. apply overlap_sym in Hov.
      by apply (Hnew a0).
    + by apply Hinv.
  - (* create *)
    set (newBooking := {| id := now; hallId := selectedHall st;
                          date := bd_date data; time := bd_time data;
                          endTime := bd_endTime data;
                          department := bd_department data;
                          notes := bd_notes data |}).
    assert (forall x, x ∈ bookings st ->
              hallId newBooking = hallId x -> date newBooking = date x ->
              ~ overlap newBooking x) as Hnew.
    { intros x Hx Hhall Hdate Hov.
      apply (hasConflict_false st data x Hno Hx); [| | by symmetry | exact Hov].
      - intros e He. by rewrite Hedit in He.
      - unfold currentHall. rewrite Hedit. by symmetry. }
    intros a b Ha Hb.
    apply elem_of_app in Ha as [Ha|Ha%list_elem_of_singleton];
      apply elem_of_app in Hb as [Hb|Hb%list_elem_of_singleton]; subst.
    + by apply Hinv.
    + intros _ Hhall Hdate Hov. apply overlap_sym in Hov.
      by apply (Hnew a).
    + intros _ Hhall Hdate. by apply Hnew.
    + done.
Qed.

(** C3. A save that would break the interval-disjointness invariant of the
    booking set ends by throwing the conflict error and leaves the whole
    state, the booking set included, exactly as it was. *)
Theorem conflicting_save_refused (now : string) (data : BookingData)
    (st : State) :
  disjoint (bookings st) ->
  ~ disjoint (savedBookings now data st) ->
  handleSaveBooking now data st = (st, Threw conflictMessage).
Proof.
  intros Hinv Hbreak. unfold handleSaveBooking.
  destruct (hasConflict st data) eqn:Hc; [done|].
  destruct Hbreak. by apply savedBookings_disjoint.
Qed.

Lemma conflicting_save_refused_witness :
  disjoint (bookings Samples.creating) /\
  ~ disjoint (savedBookings "2025-03-09T09:00:00.000Z" Samples.formB
                            Samples.creating) /\
  handleSaveBooking "2025-03-09T09:00:00.000Z" Samples.formB Samples.creating
    = (Samples.creating, Threw conflictMessage).
Proof.
  assert (disjoint (bookings Samples.creating)) as Hinv.
  { intros a b Ha%list_elem_of_singleton Hb%list_elem_of_singleton Hne.
    congruence. }
  assert (~ disjoint (savedBookings "2025-03-09T09:00:00.000Z" Samples.formB
                                    Samples.creating)) as Hbreak.
  { intros Hdis.
    apply (Hdis Samples.bookingA Samples.bookingB).
    - simpl. constructor.
    - simpl. do 2 constructor.
    - discriminate.
    - reflexivity.
    - reflexivity.
    - split; reflexivity. }
  split; [exact Hinv|]. split; [exact Hbreak|].
  exact (conflicting_save_refused _ _ _ Hinv Hbreak).
Defined.

(** The same refusal, from the overlapping booking itself. *)
Lemma overlapping_save_refused now data st other :
  other ∈ bookings st ->
  not_excluded (bookingToEdit (modalInfo st)) other ->
  hallId other = currentHall st ->
  date other = bd_date data ->
  Js.lt (bd_time data) (endTime other) = true ->
  Js.gt (bd_endTime data) (time other) = true ->
  handleSaveBooking now data st = (st, Threw conflictMessage).
Proof.
  intros Hin Hex Hhall Hdate Hlt Hgt. unfold handleSaveBooking.
  assert (hasConflict st data = true) as ->; [|done].
  apply hasConflict_true. by exists other.
Qed.

(** C8. A save that edits a booking keeps every booking of the set in its
    place with its id; the bookings with another id than the edited one are
    left exactly as they were, and the edited booking keeps its hall. *)
Theorem update_keeps_id_hall_and_others (now : string) (data : BookingData)
    (st : State) (edited : Booking) :
  bookingToEdit (modalInfo st) = Some edited ->
  length (bookings (handleSaveBooking now data st).1) = length (bookings st) /\
  forall (k : nat) (b : Booking),
    bookings st !! k = Some b ->
    exists b',
      bookings (handleSaveBooking now data st).1 !! k = Some b' /\
      id b' = id b /\
      (id b <> id edited -> b' = b) /\
      (b = edited -> hallId b' = hallId b).
Proof.
  intros Hedit. unfold handleSaveBooking.
  destruct (hasConflict st data); simpl.
  { split; [done|]. intros k b Hk. by exists b. }
  unfold savedBookings. rewrite Hedit.
  change (map ?f ?l) with (f <$> l).
  split; [by rewrite length_fmap|].
  intros k b Hk. rewrite list_lookup_fmap, Hk. simpl.
  eexists. split; [done|].
  destruct (String.eqb_spec (id b) (id edited)) as [Heq|Hne].
  - simpl. split; [done|]. split; [done|]. by intros ->.
  - done.
Qed.

Lemma update_keeps_id_hall_and_others_witness :
  bookingToEdit (modalInfo Samples.editingA) = Some Samples.bookingA /\
  bookings (handleSaveBooking "2025-03-09T09:00:00.000Z" Samples.formA'
                              Samples.editingA).1
    = [spread Samples.bookingA Samples.formA'; Samples.bookingC] /\
  (length (bookings (handleSaveBooking "2025-03-09T09:00:00.000Z"
                       Samples.formA' Samples.editingA).1)
     = length (bookings Samples.editingA) /\
   forall (k : nat) (b : Booking),
     bookings Samples.editingA !! k = Some b ->
     exists b',
       bookings (handleSaveBooking "2025-03-09T09:00:00.000Z" Samples.formA'
                                   Samples.editingA).1 !! k = Some b' /\
       id b' = id b /\
       (id b <> id Samples.bookingA -> b' = b) /\
       (b = Samples.bookingA -> hallId b' = hallId b)).
Proof.
  split; [reflexivity|]. split; [reflexivity|].
  exact (update_keeps_id_hall_and_others "2025-03-09T09:00:00.000Z"
           Samples.formA' Samples.editingA Samples.bookingA eq_refl).
Defined.

End Save.

(** ** Array search *)

Section IndexOf.

Lemma indexOf_from_range (arr : list string) (x : string) (k : Z) :
  Js.indexOf_from arr x k = -1 \/
  k <= Js.indexOf_from arr x k < k + Js.len arr.
Proof.
  revert k. induction arr as [|y rest IH]; intros k; simpl; [by left|].
  unfold Js.len. simpl length.
  destruct (String.eqb y x); [right; lia|].
  destruct (IH (k + 1)) as [->|H]; [by left|right].
  unfold Js.len in H. lia.
Qed.

Lemma indexOf_lt_len (arr : list string) (x : string) :
  Js.indexOf arr x < Js.len arr \/ arr = [].
Proof.
  destruct arr as [|y rest]; [by right|left].
  destruct (indexOf_from_range (y :: rest) x 0) as [H|H];
    unfold Js.indexOf; [|lia].
  rewrite H. unfold Js.len. simpl length. lia.
Qed.

Lemma indexOf_from_lookup (arr : list string) (x : string) (k : Z) (n : nat) :
  NoDup arr -> arr !! n = Some x ->
  Js.indexOf_from arr x k = k + Z.of_nat n.
Proof.
  revert k n. induction arr as [|y rest IH]; intros k n Hnd Hn; [done|].
  apply NoDup_cons in Hnd as [Hy Hnd]. simpl.
  destruct n as [|n]; simpl in Hn.
  - injection Hn as ->. rewrite String.eqb_refl. lia.
  - destruct (String.eqb_spec y x) as [->|_].
    + destruct Hy. by eapply list_elem_of_lookup_2.
    + rewrite (IH (k + 1) n) by done. lia.
Qed.

Lemma indexOf_lookup (arr : list string) (x : string) (n : nat) :
  NoDup arr -> arr !! n = Some x -> Js.indexOf arr x = Z.of_nat n.
Proof.
  intros Hnd Hn. unfold Js.indexOf.
  by rewrite (indexOf_from_lookup arr x 0 n).
Qed.

Lemma get_Some {A} (arr : list A) (i : Z) (x : A) :
  Js.get arr i = Some x <-> 0 <= i /\ arr !! Z.to_nat i = Some x.
Proof.
  unfold Js.get. destruct (Z.ltb_spec i 0) as [Hneg|Hpos]; split.
  - done.
  - intros [? _]. lia.
  - intros ?. split; [lia|done].
  - by intros [_ ?].
Qed.

Lemma len_slice_0_m1 {A} (arr : list A) :
  Js.len (Js.slice_0_m1 arr) = Z.max 0 (Js.len arr - 1).
Proof.
  unfold Js.len, Js.slice_0_m1. rewrite length_take. lia.
Qed.

Lemma slice_0_m1_lookup {A} (arr : list A) (n : nat) :
  Z.of_nat n < Js.len (Js.slice_0_m1 arr) ->
  Js.slice_0_m1 arr !! n = arr !! n.
Proof.
  rewrite len_slice_0_m1. unfold Js.len, Js.slice_0_m1. intros H.
  apply lookup_take_lt. lia.
Qed.

End IndexOf.

(** ** The grid of [ScheduleTable] *)

Section Grid.

Import ScheduleTable.

Variable timeSlots : list string.
Variable dayBookings : list Booking.

#[local] Abbreviation N := (Js.len (displayTimeSlots timeSlots)).

Lemma cellsFrom_turn (i : Z) :
  cellsFrom timeSlots dayBookings i =
  if decide (i < N)
  then (cellStep timeSlots dayBookings i).1
         :: cellsFrom timeSlots dayBookings (cellStep timeSlots dayBookings i).2
  else [].
Proof.
  rewrite cellsFrom_equation_1.
  destruct (decide (i < Js.len (displayTimeSlots timeSlots))); reflexivity.
Qed.

Lemma cellStep_spec (i : Z) :
  i < N ->
  (cellStep timeSlots dayBookings i).2
    = i + span (cellStep timeSlots dayBookings i).1 /\
  1 <= span (cellStep timeSlots dayBookings i).1 /\
  (cellStep timeSlots dayBookings i).2 <= N.
Proof.
  intros Hi. unfold cellStep.
  destruct (find _ dayBookings) as [booking|]; simpl; [|lia].
  destruct (Z.gtb_spec (Js.indexOf timeSlots (endTime booking)) i);
    simpl; [|lia].
  split; [lia|]. split; [lia|].
  unfold displayTimeSlots in *. rewrite len_slice_0_m1 in *.
  destruct (indexOf_lt_len timeSlots (endTime booking)) as [?|Hnil]; [lia|].
  subst timeSlots. unfold Js.indexOf, Js.len in *. simpl in *. lia.
Qed.

Lemma cellsFrom_loop_ind (P : Z -> list Cell -> Prop) :
  (forall i, N <= i -> P i []) ->
  (forall i, i < N ->
     P (cellStep timeSlots dayBookings i).2
       (cellsFrom timeSlots dayBookings (cellStep timeSlots dayBookings i).2) ->
     P i ((cellStep timeSlots dayBookings i).1
            :: cellsFrom timeSlots dayBookings
                 (cellStep timeSlots dayBookings i).2)) ->
  forall i, P i (cellsFrom timeSlots dayBookings i).
Proof.
  intros Hstop Hturn i.
  remember (Z.to_nat (N - i)) as fuel eqn:Hfuel.
  revert i Hfuel. induction (lt_wf fuel) as [fuel _ IH]. intros i ->.
  rewrite cellsFrom_turn. destruct (decide (i < N)) as [Hi|Hi].
  - apply Hturn; [done|]. eapply IH; [|reflexivity].
    pose proof (cellStep_spec i Hi). lia.
  - apply Hstop. lia.
Qed.

Lemma total_span_cellsFrom (i : Z) :
  i <= N -> total_span (cellsFrom timeSlots dayBookings i) = N - i.
Proof.
  apply (cellsFrom_loop_ind (fun i row => i <= N -> total_span row = N - i)).
  - intros j Hj Hle. simpl. lia.
  - intros j Hj IH _. destruct (cellStep_spec j Hj) as (Hnext & Hpos & Hle).
    simpl. rewrite IH by done. lia.
Qed.

Lemma span_cellsFrom_pos (i : Z) (c : Cell) :
  c ∈ cellsFrom timeSlots dayBookings i -> 1 <= span c.
Proof.
  apply (cellsFrom_loop_ind (fun _ row => c ∈ row -> 1 <= span c)).
  - intros j _ Hin. by apply elem_of_nil in Hin.
  - intros j Hj IH [->|Hin]%elem_of_cons; [|by apply IH].
    by destruct (cellStep_spec j Hj) as (_ & Hpos & _).
Qed.

(** Every cell of the row sits at the column of the loop turn that pushed
    it, and that turn is one of a display slot. *)
Lemma place_cellsFrom (i : Z) (pc : Z * Cell) :
  pc ∈ place i (cellsFrom timeSlots dayBookings i) ->
  i <= pc.1 < N /\
  cellStep timeSlots dayBookings pc.1 = (pc.2, pc.1 + span pc.2).
Proof.
  apply (cellsFrom_loop_ind (fun i row =>
    pc ∈ place i row ->
    i <= pc.1 < N /\
    cellStep timeSlots dayBookings pc.1 = (pc.2, pc.1 + span pc.2))).
  - intros j _ Hin. by apply elem_of_nil in Hin.
  - intros j Hj IH Hin. destruct (cellStep_spec j Hj) as (Hnext & Hpos & Hle).
    simpl in Hin. apply elem_of_cons in Hin as [->|Hin].
    + simpl. split; [lia|]. rewrite <- Hnext.
      by destruct (cellStep timeSlots dayBookings j).
    + rewrite <- Hnext in Hin. destruct (IH Hin) as [Hrange Hstep].
      split; [lia|done].
Qed.

End Grid.

Section Placement.

Import ScheduleTable.

Lemma place_snd (start : Z) (row : list Cell) :
  (place start row).*2 = row.
Proof.
  revert start. induction row as [|c rest IH]; intros start; simpl; [done|].
  by rewrite IH.
Qed.

Lemma place_start_le (start : Z) (row : list Cell) (pc : Z * Cell) :
  (forall c, c ∈ row -> 1 <= span c) ->
  pc ∈ place start row -> start <= pc.1.
Proof.
  revert start. induction row as [|c rest IH]; intros start Hpos Hin; simpl in Hin.
  - by apply elem_of_nil in Hin.
  - apply elem_of_cons in Hin as [->|Hin]; [simpl; lia|].
    assert (1 <= span c) by (apply Hpos; by left).
    apply IH in Hin; [lia|]. intros c' Hc'. apply Hpos. by right.
Qed.

(** Cells of positive width laid out side by side cover every column of
    their total width exactly once. *)
Lemma place_covers_once (row : list Cell) (start j : Z) :
  (forall c, c ∈ row -> 1 <= span c) ->
  start <= j < start + total_span row ->
  exists! k : nat, exists pc, place start row !! k = Some pc /\ covers pc j.
Proof.
  revert start. induction row as [|c rest IH]; intros start Hpos Hj.
  { simpl in Hj. lia. }
  assert (1 <= span c) as Hc by (apply Hpos; by left).
  assert (forall c', c' ∈ rest -> 1 <= span c') as Hrest
    by (intros c' Hc'; apply Hpos; by right).
  simpl in Hj. destruct (decide (j < start + span c)) as [Hhere|Hlater].
  - exists 0%nat. split.
    + exists (start, c). split; [done|]. unfold covers. simpl. lia.
    + intros [|k] (pc & Hk & Hcov); [done|]. simpl in Hk.
      apply list_elem_of_lookup_2, place_start_le in Hk; [|done].
      unfold covers in Hcov. lia.
  - destruct (IH (start + span c) Hrest) as (k & (pc & Hk & Hcov) & Huniq);
      [lia|].
    exists (S k). split.
    + by exists pc.
    + intros [|k'] (pc' & Hk' & Hcov').
      * simpl in Hk'. injection Hk' as <-. unfold covers in Hcov'.
        simpl in Hcov'. lia.
      * f_equal. apply Huniq. by exists pc'.
Qed.

(** C4. The cells of a row of the grid have spans that add up to the number
    of display slots (the grid without its last label), and every slot
    column is covered by exactly one of the cells, whatever the bookings of
    the day are. *)
Theorem grid_row_covers_every_slot (timeSlots : list string)
    (dayBookings : list Booking) :
  total_span (cells timeSlots dayBookings)
    = Js.len (displayTimeSlots timeSlots) /\
  forall j : Z,
    0 <= j < Js.len (displayTimeSlots timeSlots) ->
    exists! k : nat,
      exists pc, place 0 (cells timeSlots dayBookings) !! k = Some pc /\
                 covers pc j.
Proof.
  assert (total_span (cells timeSlots dayBookings)
            = Js.len (displayTimeSlots timeSlots)) as Htotal.
  { unfold cells. rewrite total_span_cellsFrom; [lia|].
    unfold Js.len. lia. }
  split; [done|]. intros j Hj. apply place_covers_once.
  - intros c Hc. by eapply span_cellsFrom_pos.
  - rewrite Htotal. lia.
Qed.

End Placement.

(** ** The slot columns of the export *)

Section ExportLoop.

Import App.

Variable slots : list string.
Variable dayBookings : list Booking.
Variable rowIndex : Z.

#[local] Abbreviation N := (Js.len (displayTimeSlots slots)).

Lemma exportFrom_turn (i : Z) :
  exportFrom slots dayBookings rowIndex i =
  if decide (i < N)
  then ((exportStep slots dayBookings rowIndex i).1.1
          ++ (exportFrom slots dayBookings rowIndex
                (exportStep slots dayBookings rowIndex i).2).1,
        (exportStep slots dayBookings rowIndex i).1.2
          ++ (exportFrom slots dayBookings rowIndex
                (exportStep slots dayBookings rowIndex i).2).2)
  else ([], []).
Proof.
  rewrite exportFrom_equation_1.
  destruct (decide (i < Js.len (displayTimeSlots slots))); reflexivity.
Qed.

Lemma exportStep_advances (i : Z) :
  i < (exportStep slots dayBookings rowIndex i).2.
Proof.
  unfold exportStep.
  destruct (find _ dayBookings) as [booking|]; simpl; [|lia].
  destruct (Z.gtb_spec (Js.indexOf slots (endTime booking))
                       (Js.indexOf slots (time booking))); lia.
Qed.

Lemma exportFrom_loop_ind
    (P : Z -> list SheetValue * list XLSX.Range -> Prop) :
  (forall i, N <= i -> P i ([], [])) ->
  (forall i, i < N ->
     P (exportStep slots dayBookings rowIndex i).2
       (exportFrom slots dayBookings rowIndex
          (exportStep slots dayBookings rowIndex i).2) ->
     P i ((exportStep slots dayBookings rowIndex i).1.1
            ++ (exportFrom slots dayBookings rowIndex
                  (exportStep slots dayBookings rowIndex i).2).1,
          (exportStep slots dayBookings rowIndex i).1.2
            ++ (exportFrom slots dayBookings rowIndex
                  (exportStep slots dayBookings rowIndex i).2).2)) ->
  forall i, P i (exportFrom slots dayBookings rowIndex i).
Proof.
  intros Hstop Hturn i.
  remember (Z.to_nat (N - i)) as fuel eqn:Hfuel.
  revert i Hfuel. induction (lt_wf fuel) as [fuel _ IH]. intros i ->.
  rewrite exportFrom_turn. destruct (decide (i < N)) as [Hi|Hi].
  - apply Hturn; [done|]. eapply IH; [|reflexivity].
    pose proof (exportStep_advances i). lia.
  - apply Hstop. lia.
Qed.

(** The booking found at a display slot starts at that position of a grid
    without repeated labels. *)
Lemma found_at_slot (i : Z) (booking : Booking) :
  NoDup slots -> 0 <= i ->
  find (fun b => Js.strict_eq (time b) (Js.get slots i)) dayBookings
    = Some booking ->
  booking ∈ dayBookings /\
  slots !! Z.to_nat i = Some (time booking) /\
  Js.indexOf slots (time booking) = i.
Proof.
  intros Hnd Hi Hfind. apply find_some in Hfind as [Hin Heq].
  apply list_elem_of_In in Hin. split; [done|].
  unfold Js.strict_eq in Heq.
  destruct (Js.get slots i) as [label|] eqn:Hget; [|done].
  apply String.eqb_eq in Heq as <-.
  apply get_Some in Hget as [_ Hget]. split; [done|].
  rewrite (indexOf_lookup slots _ _ Hnd Hget). lia.
Qed.

Lemma exportStep_spec (i : Z) :
  NoDup slots -> 0 <= i < N ->
  (exportStep slots dayBookings rowIndex i).2
    = i + Js.len (exportStep slots dayBookings rowIndex i).1.1 /\
  (exportStep slots dayBookings rowIndex i).2 <= N.
Proof.
  intros Hnd Hi. unfold exportStep.
  destruct (find _ dayBookings) as [booking|] eqn:Hfind; simpl;
    [|unfold Js.len in *; simpl; lia].
  apply found_at_slot in Hfind as (_ & _ & ->); [|done|lia].
  unfold displayTimeSlots in *. rewrite len_slice_0_m1 in *.
  unfold Js.len in *. simpl length. rewrite length_replicate.
  destruct (Z.gtb_spec (Js.indexOf slots (endTime booking)) i); [|lia].
  split; [lia|].
  destruct (indexOf_lt_len slots (endTime booking)) as [?|Hnil];
    [unfold Js.len in *; lia|].
  subst slots. unfold Js.indexOf in *. simpl in *. lia.
Qed.

(** In a grid without repeated labels the loop pushes one value for each
    display slot. *)
Lemma len_exportFrom (i : Z) :
  NoDup slots -> 0 <= i <= N ->
  Js.len (exportFrom slots dayBookings rowIndex i).1 = N - i.
Proof.
  intros Hnd.
  apply (exportFrom_loop_ind (fun i out => 0 <= i <= N -> Js.len out.1 = N - i)).
  - intros j Hj Hle. unfold Js.len in *. simpl. lia.
  - intros j Hj IH Hle.
    destruct (exportStep_spec j Hnd) as (Hnext & Hmax); [lia|].
    pose proof (exportStep_advances j).
    unfold Js.len in *. simpl. rewrite length_app.
    rewrite Nat2Z.inj_add, IH by lia. lia.
Qed.

End ExportLoop.

(** ** The grid and the export side by side *)

Section GridAndExport.

Import App Invariants.

Variable slots : list string.
Variable dayBookings : list Booking.

Hypothesis slots_NoDup : NoDup slots.

#[local] Abbreviation N := (Js.len (displayTimeSlots slots)).

(** The label of the slot a cell of the grid stands for is the one of the
    column the cell starts at. *)
Lemma cellSlot_placed (pc : Z * ScheduleTable.Cell) :
  pc ∈ ScheduleTable.place 0 (ScheduleTable.cells slots dayBookings) ->
  0 <= pc.1 < N /\
  cellSlot pc.2 = displayTimeSlots slots !! Z.to_nat pc.1.
Proof.
  intros Hin. apply place_cellsFrom in Hin as [Hrange Hstep].
  split; [done|].
  assert (Js.get slots pc.1 = displayTimeSlots slots !! Z.to_nat pc.1) as Hget.
  { unfold Js.get. destruct (Z.ltb_spec pc.1 0); [lia|].
    symmetry. apply slice_0_m1_lookup.
    unfold displayTimeSlots, ScheduleTable.displayTimeSlots in *.
    rewrite Z2Nat.id by lia. apply Hrange. }
  rewrite <- Hget. unfold ScheduleTable.cellStep in Hstep.
  destruct (find _ dayBookings) as [booking|] eqn:Hfind.
  - destruct (_ >? _).
    + injection Hstep as <- _. simpl.
      apply find_some in Hfind as [_ Heq]. unfold Js.strict_eq in Heq.
      destruct (Js.get slots pc.1); [|done].
      by apply String.eqb_eq in Heq as ->.
    + by injection Hstep as <- _.
  - by injection Hstep as <- _.
Qed.

(** Where every booking that starts at a display slot ends at a later
    position of the grid, the export writes the row of the grid: the same
    cells, with the same spans, at the same columns. *)
Lemma exportFrom_cellsFrom (rowIndex i : Z) :
  ends_later slots dayBookings -> 0 <= i ->
  exportFrom slots dayBookings rowIndex i =
  (ScheduleTable.cellsFrom slots dayBookings i ≫= sheetValues,
   sheetMerges rowIndex
     (ScheduleTable.place i (ScheduleTable.cellsFrom slots dayBookings i))).
Proof.
  intros Hwf. revert i.
  apply (cellsFrom_loop_ind slots dayBookings (fun i row =>
    0 <= i ->
    exportFrom slots dayBookings rowIndex i =
    (row ≫= sheetValues, sheetMerges rowIndex (ScheduleTable.place i row)))).
  - intros i Hi _. rewrite exportFrom_turn.
    destruct (decide _) as [Hlt|_]; [|done].
    unfold ScheduleTable.displayTimeSlots, displayTimeSlots in *. lia.
  - intros i Hi IH H0. rewrite exportFrom_turn.
    destruct (decide _) as [_|Hge];
      [|unfold ScheduleTable.displayTimeSlots, displayTimeSlots in *; lia].
    assert (exportStep slots dayBookings rowIndex i =
            (sheetValues (ScheduleTable.cellStep slots dayBookings i).1,
             sheetMerges rowIndex
               [(i, (ScheduleTable.cellStep slots dayBookings i).1)],
             (ScheduleTable.cellStep slots dayBookings i).2)) as Hstep.
    { unfold exportStep, ScheduleTable.cellStep.
      destruct (find _ dayBookings) as [booking|] eqn:Hfind; [|done].
      apply found_at_slot in Hfind as (Hin & Hslot & ->); [|done|done].
      assert (i < Js.indexOf slots (endTime booking)) as Hlater.
      { specialize (Hwf booking (Z.to_nat i) Hin).
        rewrite Z2Nat.id in Hwf by done. apply Hwf.
        unfold displayTimeSlots. rewrite slice_0_m1_lookup; [done|].
        unfold ScheduleTable.displayTimeSlots in Hi. lia. }
      destruct (Z.gtb_spec (Js.indexOf slots (endTime booking)) i); [|lia].
      simpl. by rewrite app_nil_r. }
    rewrite Hstep. simpl fst. simpl snd.
    pose proof (cellStep_spec slots dayBookings i Hi) as (Hnext & Hpos & _).
    rewrite IH by lia. simpl. f_equal.
    rewrite <- Hnext.
    destruct (ScheduleTable.cellStep slots dayBookings i).1; simpl; [done|].
    by rewrite app_nil_r.
Qed.

Lemma exportSlots_sheetOfGrid (rowIndex : Z) :
  ends_later slots dayBookings ->
  exportSlots slots dayBookings rowIndex
    = sheetOfGrid rowIndex (ScheduleTable.cells slots dayBookings).
Proof.
  intros Hwf. unfold exportSlots, sheetOfGrid, ScheduleTable.cells.
  by apply exportFrom_cellsFrom.
Qed.

End GridAndExport.

(** ** The bookings of a day *)

Section DayBookings.

Import ScheduleTable Layout.

#[local] Abbreviation add_to_group :=
  (fun (groups : gmap string (list Booking)) (booking : Booking) =>
     <[date booking := default [] (groups !! date booking) ++ [booking]]> groups).

#[local] Abbreviation reduce_step :=
  (fun (acc : option (gmap string (list Booking))) (booking : Booking) =>
     acc ≫= fun groups =>
       match Js.getProperty groups (date booking) with
       | Js.Own group => Some (<[date booking := group ++ [booking]]> groups)
       | Js.Inherited => None
       | Js.Undefined => Some (<[date booking := [booking]]> groups)
       end).

(** No own property of the object has a name that is inherited. *)
#[local] Abbreviation plain_keys :=
  (fun (groups : gmap string (list Booking)) =>
     forall key, Js.inherited key = true -> groups !! key = None).

Lemma bookingsByDate_foldl (bookings : list Booking)
    (acc : gmap string (list Booking)) (d : string) :
  default [] (foldl add_to_group acc bookings !! d)
  = default [] (acc !! d)
      ++ List.filter (fun b => String.eqb (date b) d) bookings.
Proof.
  revert acc. induction bookings as [|b rest IH]; intros acc; simpl.
  { by rewrite app_nil_r. }
  rewrite IH. destruct (String.eqb_spec (date b) d) as [->|Hne].
  - rewrite lookup_insert_eq. simpl. by rewrite <- app_assoc.
  - by rewrite lookup_insert_ne.
Qed.

Lemma bookingsByDate_is_Some (bookings : list Booking)
    (acc : gmap string (list Booking)) (d : string) :
  is_Some (foldl add_to_group acc bookings !! d)
  <-> is_Some (acc !! d) \/ exists b, b ∈ bookings /\ date b = d.
Proof.
  revert acc. induction bookings as [|b rest IH]; intros acc; cbn [foldl].
  { split; [by left|]. intros [?|(b & Hb & _)]; [done|].
    by apply elem_of_nil in Hb. }
  rewrite IH. destruct (decide (date b = d)) as [<-|Hne].
  - rewrite lookup_insert_eq. split.
    + intros _. right. exists b. split; [by left|done].
    + intros _. left. by eexists.
  - rewrite lookup_insert_ne by done. split.
    + intros [?|(b' & Hb' & Hd)]; [by left|]. right. exists b'.
      split; [by right|done].
    + intros [?|(b' & [->|Hb']%elem_of_cons & Hd)]; [by left|done|].
      right. by exists b'.
Qed.

Lemma reduce_thrown (bookings : list Booking) :
  foldl reduce_step None bookings = None.
Proof. induction bookings as [|b rest IH]; [done|]. exact IH. Qed.

(** One turn of the reduce at a date that names no inherited property
    adds the booking to the group of its date. *)
Lemma reduce_step_plain (groups : gmap string (list Booking)) (b : Booking) :
  Js.inherited (date b) = false ->
  reduce_step (Some groups) b = Some (add_to_group groups b).
Proof.
  intros Hkey. cbn [mbind option_bind]. unfold Js.getProperty.
  rewrite Hkey. by destruct (groups !! date b).
Qed.

(** The reduce goes through where no date names an inherited property,
    and then groups the bookings. *)
Lemma reduce_plain (bookings : list Booking)
    (acc : gmap string (list Booking)) :
  plain_dates bookings ->
  foldl reduce_step (Some acc) bookings
  = Some (foldl add_to_group acc bookings).
Proof.
  revert acc. induction bookings as [|b rest IH]; intros acc Hplain; [done|].
  cbn [foldl]. rewrite reduce_step_plain by (apply Hplain; by left).
  apply IH. intros b' Hb'. apply Hplain. by right.
Qed.

(** The reduce throws at the first date that names an inherited
    property. *)
Lemma reduce_inherited (bookings : list Booking)
    (acc : gmap string (list Booking)) (b : Booking) :
  plain_keys acc ->
  b ∈ bookings -> Js.inherited (date b) = true ->
  foldl reduce_step (Some acc) bookings = None.
Proof.
  revert acc. induction bookings as [|b0 rest IH]; intros acc Hacc Hb Hkey.
  { by apply elem_of_nil in Hb. }
  cbn [foldl]. destruct (Js.inherited (date b0)) eqn:Hb0.
  - cbn [mbind option_bind]. unfold Js.getProperty.
    rewrite (Hacc _ Hb0), Hb0. apply reduce_thrown.
  - rewrite reduce_step_plain by done.
    apply elem_of_cons in Hb as [->|Hb]; [congruence|].
    apply IH; [|done|done].
    intros key Hk. rewrite lookup_insert_ne by congruence. by apply Hacc.
Qed.

Lemma bookingsByDate_None (bookings : list Booking) :
  bookingsByDate bookings = None <->
  exists b, b ∈ bookings /\ Js.inherited (date b) = true.
Proof.
  unfold bookingsByDate. split.
  - intros Hnone.
    destruct (decide (Exists (fun b => Js.inherited (date b) = true) bookings))
      as [Hex|Hnot].
    + by apply Exists_exists in Hex.
    + rewrite reduce_plain in Hnone; [done|].
      intros b Hb. destruct (Js.inherited (date b)) eqn:Hk; [|done].
      destruct Hnot. apply Exists_exists. by exists b.
  - intros (b & Hb & Hk). by apply (reduce_inherited bookings ∅ b).
Qed.

Lemma bookingsByDate_Some (bookings : list Booking)
    (byDate : gmap string (list Booking)) :
  bookingsByDate bookings = Some byDate ->
  plain_dates bookings /\ byDate = foldl add_to_group ∅ bookings.
Proof.
  intros Hsome.
  assert (plain_dates bookings) as Hplain.
  { intros b Hb. destruct (Js.inherited (date b)) eqn:Hk; [|done].
    assert (bookingsByDate bookings = None) as Hnone
      by (apply bookingsByDate_None; by exists b).
    congruence. }
  split; [done|]. unfold bookingsByDate in Hsome.
  rewrite reduce_plain in Hsome by done. congruence.
Qed.

(** The groups have the dates of the bookings as their names, none of
    which is inherited. *)
Lemma bookingsByDate_plain_keys (bookings : list Booking)
    (byDate : gmap string (list Booking)) (key : string) :
  bookingsByDate bookings = Some byDate ->
  Js.inherited key = true -> byDate !! key = None.
Proof.
  intros [Hplain ->]%bookingsByDate_Some Hkey.
  apply eq_None_not_Some. rewrite bookingsByDate_is_Some, lookup_empty.
  intros [[? [=]]|(b & Hb & <-)]. rewrite (Hplain b Hb) in Hkey. done.
Qed.

(** The bookings the grid works on for a day are those the export works
    on: the bookings of that date, in the order of the set. *)
Lemma allDayBookings_filter (bookings : list Booking)
    (byDate : gmap string (list Booking)) (formattedDate : string)
    (dayBookings : list Booking) :
  bookingsByDate bookings = Some byDate ->
  allDayBookings byDate formattedDate = Some dayBookings ->
  dayBookings
  = List.filter (fun b => String.eqb (date b) formattedDate) bookings.
Proof.
  intros [_ ->]%bookingsByDate_Some. unfold allDayBookings, Js.getProperty.
  pose proof (bookingsByDate_foldl bookings ∅ formattedDate) as Hgroup.
  rewrite lookup_empty in Hgroup. simpl in Hgroup. rewrite <- Hgroup.
  destruct (foldl _ ∅ bookings !! formattedDate) as [group|];
    [by intros [= <-]|].
  destruct (Js.inherited formattedDate); [done|]. by intros [= <-].
Qed.

(** The row of a day in a table that renders: the cells and the notes of
    the bookings of its date. *)
Lemma tableRows_lookup (formatToYYYYMMDD : Date -> string)
    (timeSlots : list string) (bookings : list Booking) (days : list Date)
    (rows : list (list Cell * string)) (k : nat) (day : Date) :
  tableRows formatToYYYYMMDD timeSlots bookings days = Some rows ->
  days !! k = Some day ->
  rows !! k
  = Some (cells timeSlots
            (List.filter (fun b => String.eqb (date b) (formatToYYYYMMDD day))
                         bookings),
          rowNotes
            (List.filter (fun b => String.eqb (date b) (formatToYYYYMMDD day))
                         bookings)).
Proof.
  unfold tableRows. intros Hrows Hday.
  destruct (bookingsByDate bookings) as [byDate|] eqn:HbyDate; [|done].
  simpl in Hrows. apply mapM_Some in Hrows.
  destruct (Forall2_lookup_l _ _ _ _ _ Hrows Hday) as (row & Hrow & Hcall).
  rewrite Hrow. f_equal. unfold tableRow in Hcall.
  destruct (allDayBookings byDate (formatToYYYYMMDD day)) as [dayBookings|]
    eqn:Hall; [|done].
  simpl in Hcall. injection Hcall as <-.
  by rewrite (allDayBookings_filter _ _ _ _ HbyDate Hall).
Qed.

(** The table renders exactly when no date of a booking and no formatted
    date of a day names an inherited property. *)
Lemma tableRows_renders (formatToYYYYMMDD : Date -> string)
    (timeSlots : list string) (bookings : list Booking) (days : list Date) :
  is_Some (tableRows formatToYYYYMMDD timeSlots bookings days) <->
  plain_dates bookings /\ plain_days formatToYYYYMMDD days.
Proof.
  unfold tableRows. split.
  - intros [rows Hrows].
    destruct (bookingsByDate bookings) as [byDate|] eqn:HbyDate; [|done].
    pose proof HbyDate as [Hplain _]%bookingsByDate_Some. split; [done|].
    simpl in Hrows. apply mapM_Some in Hrows.
    intros day [k Hk]%list_elem_of_lookup.
    destruct (Forall2_lookup_l _ _ _ _ _ Hrows Hk) as (row & _ & Hcall).
    destruct (Js.inherited (formatToYYYYMMDD day)) eqn:Hkey; [|done].
    unfold tableRow, allDayBookings, Js.getProperty in Hcall.
    by rewrite (bookingsByDate_plain_keys _ _ _ HbyDate Hkey), Hkey in Hcall.
  - intros [Hplain Hdays]. unfold bookingsByDate.
    rewrite reduce_plain by done. simpl. apply mapM_is_Some.
    apply Forall_forall. intros day Hday.
    unfold compose, tableRow, allDayBookings, Js.getProperty.
    rewrite (Hdays day Hday). by destruct (_ !! _).
Qed.

End DayBookings.

(** ** The fixed grid *)

Section FixedGrid.

Import App Invariants.

Lemma timeSlots_NoDup : NoDup timeSlots.
Proof. apply (bool_decide_unpack _). by vm_compute. Qed.

Lemma timeSlots_display :
  displayTimeSlots timeSlots =
  ["07:30"; "08:00"; "09:00"; "10:00"; "11:00"; "12:00";
   "13:00"; "14:00"; "15:00"; "16:00"; "17:00"]%string.
Proof. reflexivity. Qed.

(** C7. The last label of the grid, 18:00, is no column of the grid or of
    the export: the headers of both are the grid without its last label,
    no cell of a row of the grid stands for the slot 18:00, whatever the
    bookings are, and the export writes as many slot values in a row as
    there are header labels. *)
Theorem sentinel_is_never_a_column (dayBookings : list Booking) (rowIndex : Z) :
  last timeSlots = Some sentinel /\
  ScheduleTable.headerLabels timeSlots = Js.slice_0_m1 timeSlots /\
  displayTimeSlots timeSlots = Js.slice_0_m1 timeSlots /\
  (sentinel ∉ Js.slice_0_m1 timeSlots) /\
  (VString sentinel ∉ headerRow2 timeSlots) /\
  (forall c, c ∈ ScheduleTable.cells timeSlots dayBookings ->
             cellSlot c <> Some sentinel) /\
  Js.len (exportSlots timeSlots dayBookings rowIndex).1
    = Js.len (displayTimeSlots timeSlots).
Proof.
  split; [reflexivity|]. split; [reflexivity|]. split; [reflexivity|].
  assert (sentinel ∉ Js.slice_0_m1 timeSlots) as Hnot.
  { apply (bool_decide_unpack _). by vm_compute. }
  split; [done|]. split.
  { apply (bool_decide_unpack _). by vm_compute. }
  split.
  - intros c Hc Hslot.
    assert (exists pc, pc ∈ ScheduleTable.place 0
                              (ScheduleTable.cells timeSlots dayBookings)
                       /\ pc.2 = c) as (pc & Hpc & <-).
    { rewrite <- (place_snd 0 (ScheduleTable.cells timeSlots dayBookings)) in Hc.
      apply list_elem_of_fmap in Hc as (pc & -> & Hpc). by exists pc. }
    apply cellSlot_placed in Hpc as [_ Hlabel].
    rewrite Hslot in Hlabel. symmetry in Hlabel.
    apply list_elem_of_lookup_2 in Hlabel. done.
  - unfold exportSlots. rewrite len_exportFrom; [lia|apply timeSlots_NoDup|].
    by vm_compute.
Qed.

End FixedGrid.

(** ** A booking that does not end at a later slot *)

Section Malformed.

Import App Invariants Samples.

(** At such a booking the grid pushes an empty cell for the slot and moves
    on by one slot. *)
Lemma cellStep_not_later (slots : list string) (dayBookings : list Booking)
    (i : Z) (booking : Booking) :
  find (fun b => Js.strict_eq (time b) (Js.get slots i)) dayBookings
    = Some booking ->
  Js.indexOf slots (endTime booking) <= i ->
  ScheduleTable.cellStep slots dayBookings i
    = (ScheduleTable.EmptyCell (Js.get slots i), i + 1).
Proof.
  intros Hfind Hend. unfold ScheduleTable.cellStep. rewrite Hfind.
  by destruct (Z.gtb_spec (Js.indexOf slots (endTime booking)) i); [lia|].
Qed.

(** At such a booking the export pushes the department of the booking in
    one column, merges nothing and moves on by one slot. *)
Lemma exportStep_not_later (slots : list string) (dayBookings : list Booking)
    (rowIndex i : Z) (booking : Booking) :
  find (fun b => Js.strict_eq (time b) (Js.get slots i)) dayBookings
    = Some booking ->
  Js.indexOf slots (endTime booking) <= Js.indexOf slots (time booking) ->
  exportStep slots dayBookings rowIndex i
    = ([VString (department booking)], [], i + 1).
Proof.
  intros Hfind Hend. unfold exportStep. rewrite Hfind.
  by destruct (Z.gtb_spec (Js.indexOf slots (endTime booking))
                          (Js.indexOf slots (time booking))); [lia|].
Qed.

(** C1. A booking from 10:00 to 09:00, alone on its day: the export shows
    it in one column at 10:00 without a merge, but the grid shows eleven
    empty cells and no cell of the booking. *)
Theorem grid_drops_booking_that_ends_before_it_starts :
  exportSlots timeSlots [inverted] 4
    = ([VString EmptyString; VString EmptyString; VString EmptyString;
        VString (department inverted);
        VString EmptyString; VString EmptyString; VString EmptyString;
        VString EmptyString; VString EmptyString; VString EmptyString;
        VString EmptyString], []) /\
  ScheduleTable.cells timeSlots [inverted]
    = map (fun slot => ScheduleTable.EmptyCell (Some slot))
          (ScheduleTable.displayTimeSlots timeSlots) /\
  (forall colSpan,
     ScheduleTable.BookingCell inverted colSpan
       ∉ ScheduleTable.cells timeSlots [inverted]).
Proof.
  assert (ScheduleTable.cells timeSlots [inverted]
          = map (fun slot => ScheduleTable.EmptyCell (Some slot))
                (ScheduleTable.displayTimeSlots timeSlots)) as Hgrid
    by reflexivity.
  split; [reflexivity|]. split; [done|].
  intros colSpan Hin. rewrite Hgrid in Hin.
  change (map ?f ?l) with (f <$> l) in Hin.
  by apply list_elem_of_fmap in Hin as (slot & Heq & _).
Qed.

(** C5. A booking from 14:00 to 15:30, an end that is no label of the grid,
    alone on its day: the slot columns of the export are not those that
    show the row of the grid, which has an empty cell where the export has
    the department of the booking. *)
Theorem grid_and_export_differ_on_unmatched_end :
  exportSlots timeSlots [unmatched] 4
    <> sheetOfGrid 4 (ScheduleTable.cells timeSlots [unmatched]) /\
  (exportSlots timeSlots [unmatched] 4).1 !! 7%nat
    = Some (VString (department unmatched)) /\
  ScheduleTable.cells timeSlots [unmatched] !! 7%nat
    = Some (ScheduleTable.EmptyCell (Some "14:00"%string)).
Proof.
  split; [|split; vm_compute; reflexivity].
  intros Heq.
  assert ((exportSlots timeSlots [unmatched] 4).1 !! 7%nat
          = (sheetOfGrid 4 (ScheduleTable.cells timeSlots [unmatched])).1 !! 7%nat)
    as Hcol by (by rewrite Heq).
  vm_compute in Hcol. discriminate Hcol.
Qed.

(** The rows agree where the table renders and every booking of the day
    that starts at a display slot ends at a later one: the slot columns the
    export writes for a day are those that show the row of the grid for
    that day. *)
Lemma export_row_shows_grid_row (filteredBookings : list Booking)
    (formattedDate : string) (rowIndex : Z)
    (byDate : gmap string (list Booking))
    (row : list ScheduleTable.Cell) (rowNotes : string) :
  ScheduleTable.bookingsByDate filteredBookings = Some byDate ->
  ScheduleTable.tableRow timeSlots byDate formattedDate
    = Some (row, rowNotes) ->
  ends_later timeSlots
    (List.filter (fun b => String.eqb (date b) formattedDate) filteredBookings) ->
  exportSlots timeSlots
    (List.filter (fun b => String.eqb (date b) formattedDate) filteredBookings)
    rowIndex
  = sheetOfGrid rowIndex row.
Proof.
  intros HbyDate Hrow Hwf. unfold ScheduleTable.tableRow in Hrow.
  destruct (ScheduleTable.allDayBookings byDate formattedDate)
    as [dayBookings|] eqn:Hall; [|done].
  simpl in Hrow. injection Hrow as <- _.
  rewrite (allDayBookings_filter _ _ _ _ HbyDate Hall).
  apply exportSlots_sheetOfGrid; [apply timeSlots_NoDup|done].
Qed.

End Malformed.

(** ** Startup load *)

Section Load.

Import App Invariants.




End Load.

(** ** The order of the labels *)

Section LabelOrder.

Import App Invariants.

Lemma timeSlots_lt (i j : nat) (a b : string) :
  at_position timeSlots i a -> at_position timeSlots j b ->
  Js.lt a b = bool_decide (i < j)%nat.
Proof.
  unfold at_position. intros Hi Hj.
  do 12 (destruct i as [|i];
         [injection Hi as <-;
          do 12 (destruct j as [|j]; [injection Hj as <-; reflexivity|]);
          discriminate Hj|]).
  discriminate Hi.
Qed.

(** C10. Two labels of the fixed grid compare as strings the way their
    positions compare; so the two comparisons of the conflict check, on a
    candidate and a booking whose times are labels of the grid, are the
    comparisons of the positions. *)
Theorem grid_labels_compare_by_position (i j : nat) (a b : string) :
  at_position timeSlots i a -> at_position timeSlots j b ->
  Js.lt a b = bool_decide (i < j)%nat /\
  Js.gt a b = bool_decide (j < i)%nat /\
  (forall (toEdit : option Booking) (candidate : BookingData)
          (other : Booking) (s e : nat),
     at_position timeSlots s (bd_time candidate) ->
     at_position timeSlots e (bd_endTime candidate) ->
     time other = a -> endTime other = b ->
     not_excluded toEdit other ->
     date other = bd_date candidate ->
     conflictsWith toEdit (hallId other) candidate other
       = bool_decide (s < j)%nat && bool_decide (i < e)%nat).
Proof.
  intros Hi Hj. split; [by apply timeSlots_lt|].
  split; [by apply (timeSlots_lt j i)|].
  intros toEdit candidate other s e Hs He Ha Hb Hex Hdate.
  unfold conflictsWith.
  assert (match toEdit with
          | Some edited => String.eqb (id other) (id edited)
          | None => false
          end = false) as ->.
  { destruct toEdit as [edited|]; [|done].
    apply String.eqb_neq. by apply Hex. }
  rewrite bool_decide_eq_true_2 by done.
  rewrite (proj2 (String.eqb_eq _ _) Hdate). simpl.
  rewrite Ha, Hb. change (Js.gt ?x ?y) with (Js.lt y x).
  by rewrite (timeSlots_lt s j _ _ Hs Hj), (timeSlots_lt i e _ _ Hi He).
Qed.

Lemma grid_labels_compare_by_position_witness :
  at_position timeSlots 2 "09:00" /\ at_position timeSlots 4 "11:00" /\
  Js.lt "09:00" "11:00" = true /\ Js.gt "09:00" "11:00" = false.
Proof.
  pose proof (grid_labels_compare_by_position 2 4 "09:00" "11:00"
                eq_refl eq_refl) as (Hlt & Hgt & _).
  split; [reflexivity|]. split; [reflexivity|].
  split; [exact Hlt|exact Hgt].
Defined.

End LabelOrder.

(** ** The scenarios of the specification *)

Section Scenarios.

Import App Invariants Samples.

(** A candidate that starts where a booking ends is no conflict. *)
Example adjacency_allowed :
  hasConflict
    {| selectedHall := AlWaha;
       bookings := [spread bookingA {| bd_date := "2025-03-10";
                                       bd_time := "09:00"; bd_endTime := "10:00";
                                       bd_department := "HR";
                                       bd_notes := EmptyString |}];
       hasUnsavedChanges := false;
       modalInfo := {| isOpen := true; bookingToEdit := None;
                       mi_date := Some 20157; mi_time := Some "10:00" |} |}
    {| bd_date := "2025-03-10"; bd_time := "10:00"; bd_endTime := "11:00";
       bd_department := "IT"; bd_notes := EmptyString |} = false.
Proof. reflexivity. Qed.

(** A candidate from 10:00 to 12:00 conflicts with a booking from 09:00 to
    11:00. *)
Example overlap_detected : hasConflict creating formB = true.
Proof. reflexivity. Qed.

(** A booking from 09:00 to 11:00 is one cell of two columns at the 09:00
    column, followed by the cell of 11:00. *)
Example span_of_two_slots :
  ScheduleTable.place 0 (ScheduleTable.cells timeSlots [bookingA])
  = [(0, ScheduleTable.EmptyCell (Some "07:30"%string));
     (1, ScheduleTable.EmptyCell (Some "08:00"%string));
     (2, ScheduleTable.BookingCell bookingA 2);
     (4, ScheduleTable.EmptyCell (Some "11:00"%string));
     (5, ScheduleTable.EmptyCell (Some "12:00"%string));
     (6, ScheduleTable.EmptyCell (Some "13:00"%string));
     (7, ScheduleTable.EmptyCell (Some "14:00"%string));
     (8, ScheduleTable.EmptyCell (Some "15:00"%string));
     (9, ScheduleTable.EmptyCell (Some "16:00"%string));
     (10, ScheduleTable.EmptyCell (Some "17:00"%string))].
Proof. reflexivity. Qed.

(** The last label may be the end of a booking: a booking from 16:00 to
    18:00 takes the last two columns. *)
Example booking_may_end_at_the_sentinel :
  let late := spread bookingA {| bd_date := "2025-03-10"; bd_time := "16:00";
                                 bd_endTime := sentinel; bd_department := "HR";
                                 bd_notes := EmptyString |} in
  drop 9 (ScheduleTable.cells timeSlots [late])
  = [ScheduleTable.BookingCell late 2].
Proof. reflexivity. Qed.

(** Create A; B is refused and leaves the set as it was; C, which starts
    where A ends, is added; deleting A leaves C alone. *)
Example end_to_end :
  let start := {| selectedHall := AlWaha; bookings := [];
                  hasUnsavedChanges := false; modalInfo := closedModal |} in
  let formA := {| bd_date := "2025-03-10"; bd_time := "09:00";
                  bd_endTime := "11:00"; bd_department := "HR";
                  bd_notes := "interviews" |} in
  let formC := {| bd_date := "2025-03-10"; bd_time := "11:00";
                  bd_endTime := "12:00"; bd_department := "IT";
                  bd_notes := "support" |} in
  let s1 := (handleSaveBooking (id bookingA) formA
               (handleCellClick 20157 "09:00" start)).1 in
  let r2 := handleSaveBooking (id bookingB) formB
              (handleCellClick 20157 "10:00" s1) in
  let s3 := (handleSaveBooking (id bookingC) formC
               (handleCellClick 20157 "11:00" r2.1)).1 in
  let s4 := handleDeleteBooking (handleBookingClick (id bookingA) s3) in
  bookings s1 = [bookingA] /\
  r2.2 = Threw conflictMessage /\ bookings r2.1 = [bookingA] /\
  bookings s3 = [bookingA; bookingC] /\
  bookings s4 = [bookingC].
Proof. repeat split; reflexivity. Qed.

(** Deleting keeps the booking set free of overlaps. *)
Lemma handleDeleteBooking_disjoint (st : State) :
  disjoint (bookings st) -> disjoint (bookings (handleDeleteBooking st)).
Proof.
  intros Hinv. unfold handleDeleteBooking.
  destruct (bookingToEdit (modalInfo st)) as [edited|]; [|done].
  simpl. intros a b Ha Hb.
  apply list_elem_of_In, filter_In in Ha as [Ha%list_elem_of_In _].
  apply list_elem_of_In, filter_In in Hb as [Hb%list_elem_of_In _].
  by apply Hinv.
Qed.

(** Every save keeps the booking set free of overlaps, whether it goes
    through or is refused. *)
Lemma handleSaveBooking_disjoint (now : string) (data : BookingData)
    (st : State) :
  disjoint (bookings st) ->
  disjoint (bookings (handleSaveBooking now data st).1).
Proof.
  intros Hinv. unfold handleSaveBooking.
  destruct (hasConflict st data) eqn:Hc; simpl; [done|].
  by apply savedBookings_disjoint.
Qed.

(** A stored string that is empty or that [JSON.parse] rejects gives the
    seed of the day as well; only the rejection is logged. *)
Lemma load_unparsable_falls_back (formatToYYYYMMDD : Date -> string)
    (JSON_parse : string -> option (list Booking))
    (today : Date) (savedBookings : string) :
  savedBookings = EmptyString \/ JSON_parse savedBookings = None ->
  (loadBookings formatToYYYYMMDD JSON_parse today (Item savedBookings)).1
  = generateInitialBookings formatToYYYYMMDD today.
Proof.
  intros [-> | Hparse]; simpl; [done|].
  destruct (String.eqb savedBookings EmptyString); [done|].
  by rewrite Hparse.
Qed.

(** The notes column of the export holds the notes of the bookings of the
    day, joined the way the notes cell of a row of the grid joins them. *)
Lemma rowNotes_export (formatToYYYYMMDD formatDateDisplay : Date -> string)
    (filteredBookings : list Booking) (rowIndex index : Z) (day : Date) :
  last (exportRow formatToYYYYMMDD formatDateDisplay filteredBookings
                  rowIndex index day).1
  = Some (VString (ScheduleTable.rowNotes
                     (List.filter
                        (fun b => String.eqb (date b) (formatToYYYYMMDD day))
                        filteredBookings))).
Proof.
  unfold exportRow. cbv zeta.
  change ((?row, ?ranges).1) with row. rewrite app_assoc. apply last_snoc.
Qed.

End Scenarios.

(** ** Sessions: saving, editing and deleting *)

Section Sessions.

Import App Invariants Layout.

Lemma find_id_Some (bookingId : string) (set : list Booking) (found : Booking) :
  find (fun b => String.eqb (id b) bookingId) set = Some found ->
  found ∈ set /\ id found = bookingId.
Proof.
  intros [Hin Heq]%find_some. split; [by apply list_elem_of_In|].
  by apply String.eqb_eq.
Qed.

Lemma find_id_None (bookingId : string) (set : list Booking) :
  find (fun b => String.eqb (id b) bookingId) set = None ->
  forall b, b ∈ set -> id b <> bookingId.
Proof.
  intros Hnone b Hin%list_elem_of_In.
  apply (find_none _ _ Hnone) in Hin. by apply String.eqb_neq.
Qed.

Lemma unique_id (set : list Booking) (a b : Booking) :
  NoDup (id <$> set) -> a ∈ set -> b ∈ set -> id a = id b -> a = b.
Proof.
  intros Hnd [i Hi]%list_elem_of_lookup [j Hj]%list_elem_of_lookup Hid.
  assert (i = j) as ->; [|congruence].
  eapply NoDup_lookup; [exact Hnd| |];
    rewrite list_lookup_fmap; [by rewrite Hi|by rewrite Hj, Hid].
Qed.

(** X1. Whatever the user does, in whatever order (clicks, saves that go
    through or are refused, deletions), a booking set without overlaps
    stays without overlaps. *)
Theorem session_keeps_disjoint (st : State) (events : list Session.Event) :
  disjoint (bookings st) ->
  disjoint (bookings (Session.session st events)).
Proof.
  revert st. induction events as [|ev rest IH]; intros st Hinv; [done|].
  simpl. apply IH. destruct ev as [day slot|bookingId| |now data|]; simpl.
  - done.
  - unfold handleBookingClick. by destruct (find _ _).
  - done.
  - by apply handleSaveBooking_disjoint.
  - by apply handleDeleteBooking_disjoint.
Qed.

Lemma session_keeps_disjoint_witness :
  disjoint [Samples.bookingA] /\
  disjoint (bookings (Session.session Samples.creating
    [Session.Save "2025-03-09T09:00:00.000Z" Samples.formB;
     Session.CloseModal;
     Session.BookingClick (id Samples.bookingA);
     Session.Delete])).
Proof.
  assert (disjoint (bookings Samples.creating)) as Hinv.
  { intros a b Ha%list_elem_of_singleton Hb%list_elem_of_singleton Hne.
    congruence. }
  split; [exact Hinv|].
  exact (session_keeps_disjoint Samples.creating _ Hinv).
Defined.

(** X2. Clicking a booking and deleting it removes every booking with that
    id and nothing else: the other bookings stay, in their order; a click
    on an id that no booking has changes nothing. *)
Theorem click_then_delete (bookingId : string) (st : State) :
  (forall b, b ∈ bookings st -> id b <> bookingId) /\
    handleBookingClick bookingId st = st
  \/
  (exists b, b ∈ bookings st /\ id b = bookingId) /\
    bookings (handleDeleteBooking (handleBookingClick bookingId st))
      = List.filter (fun b => negb (String.eqb (id b) bookingId)) (bookings st) /\
    (forall b, b ∈ bookings (handleDeleteBooking (handleBookingClick bookingId st))
               <-> b ∈ bookings st /\ id b <> bookingId) /\
    modalInfo (handleDeleteBooking (handleBookingClick bookingId st))
      = closedModal.
Proof.
  unfold handleBookingClick.
  destruct (find _ (bookings st)) as [found|] eqn:Hfind.
  - right. apply find_id_Some in Hfind as [Hin Hid].
    split; [by exists found|].
    unfold handleDeleteBooking. simpl. rewrite Hid. split; [done|].
    split; [|done]. intros b.
    rewrite !list_elem_of_In, filter_In, negb_true_iff, String.eqb_neq.
    done.
  - left. split; [|done]. by apply find_id_None.
Qed.

(** X3. Opening a booking and saving the form as it comes up, on a set
    without overlaps whose ids are distinct: the save goes through and the
    booking set is what it was. *)
Theorem save_unchanged_edit (formatToYYYYMMDD : Date -> string)
    (now : string) (st : State) (X : Booking) :
  disjoint (bookings st) ->
  NoDup (id <$> bookings st) ->
  X ∈ bookings st ->
  exists form,
    AppModal.getModalInitialData formatToYYYYMMDD
      (handleBookingClick (id X) st) = Some form /\
    form = formOf X /\
    (handleSaveBooking now form (handleBookingClick (id X) st)).2 = Returned /\
    bookings (handleSaveBooking now form (handleBookingClick (id X) st)).1
      = bookings st.
Proof.
  intros Hinv Hnd HX. unfold handleBookingClick.
  destruct (find _ (bookings st)) as [found|] eqn:Hfind;
    [|by destruct (find_id_None _ _ Hfind X HX)].
  apply find_id_Some in Hfind as [Hin Hid].
  assert (found = X) as -> by by apply (unique_id (bookings st)).
  exists (formOf X). split; [done|]. split; [done|].
  unfold handleSaveBooking.
  assert (hasConflict
            {| selectedHall := selectedHall st; bookings := bookings st;
               hasUnsavedChanges := hasUnsavedChanges st;
               modalInfo := {| isOpen := true; bookingToEdit := Some X;
                               mi_date := None; mi_time := None |} |}
            (formOf X) = false) as ->.
  { destruct (hasConflict _ _) eqn:Hc; [|done].
    apply hasConflict_true in Hc
      as (other & Ho & Hex & Hhall & Hdate & Hlt & Hgt).
    simpl in *. destruct (Hinv X other); try done.
    intros <-. by apply (Hex X). }
  simpl. split; [done|]. unfold savedBookings. simpl.
  rewrite <- (map_id (bookings st)) at 2. apply map_ext_in.
  intros b Hb%list_elem_of_In.
  destruct (String.eqb_spec (id b) (id X)) as [Heq|_]; [|done].
  rewrite (unique_id (bookings st) b X) by done. by destruct X.
Qed.

Lemma save_unchanged_edit_witness :
  exists form,
    AppModal.getModalInitialData DateUtils.formatToYYYYMMDD
      (handleBookingClick (id Samples.bookingC) Samples.editingA) = Some form /\
    form = formOf Samples.bookingC /\
    (handleSaveBooking "2025-03-09T09:00:00.000Z" form
       (handleBookingClick (id Samples.bookingC) Samples.editingA)).2 = Returned /\
    bookings (handleSaveBooking "2025-03-09T09:00:00.000Z" form
                (handleBookingClick (id Samples.bookingC) Samples.editingA)).1
      = bookings Samples.editingA.
Proof.
  apply save_unchanged_edit.
  - intros a b Ha Hb Hne _ _ [Hlt Hgt].
    apply elem_of_cons in Ha as [->|Ha%list_elem_of_singleton];
      apply elem_of_cons in Hb as [->|Hb%list_elem_of_singleton];
      subst; try done; discriminate.
  - apply (bool_decide_unpack _). by vm_compute.
  - simpl. do 2 constructor.
Defined.

(** X4. Saving the same new-booking form a second time in the same hall:
    the second save is refused when the form ends after it starts (as
    strings), and goes through, adding the booking again, when it does
    not. *)
Theorem second_submission (now now' : string) (form : BookingData)
    (day : Date) (slot : string) (st : State) :
  bookingToEdit (modalInfo st) = None ->
  hasConflict st form = false ->
  (handleSaveBooking now' form
     (handleCellClick day slot (handleSaveBooking now form st).1)).2
  = if Js.lt (bd_time form) (bd_endTime form)
    then Threw conflictMessage else Returned.
Proof.
  intros Hnew Hno. unfold handleSaveBooking at 2. rewrite Hno. simpl.
  unfold handleSaveBooking.
  match goal with |- (if hasConflict ?s form then _ else _).2 = _ =>
    set (st1 := s) end.
  assert (hasConflict st1 form = Js.lt (bd_time form) (bd_endTime form)) as ->;
    [|by destruct (Js.lt _ _)].
  unfold hasConflict, st1, savedBookings, currentHall in *. simpl.
  rewrite Hnew in *. rewrite existsb_app, Hno. simpl.
  unfold conflictsWith. simpl.
  rewrite bool_decide_eq_true_2 by done. rewrite String.eqb_refl. simpl.
  unfold Js.gt, Js.lt. by destruct (String.ltb _ _).
Qed.

Lemma second_submission_witness :
  bookingToEdit (modalInfo Samples.creating) = None /\
  hasConflict Samples.creating (formOf Samples.bookingC) = false /\
  (handleSaveBooking "2025-03-09T09:00:01.000Z" (formOf Samples.bookingC)
     (handleCellClick 20157 "11:00"
        (handleSaveBooking "2025-03-09T09:00:00.000Z" (formOf Samples.bookingC)
           Samples.creating).1)).2
  = Threw conflictMessage.
Proof.
  split; [reflexivity|]. split; [reflexivity|].
  exact (second_submission "2025-03-09T09:00:00.000Z" "2025-03-09T09:00:01.000Z"
           (formOf Samples.bookingC) 20157 "11:00" Samples.creating
           eq_refl eq_refl).
Defined.

End Sessions.

(** ** The form of a new booking *)

Section ModalForm.

Import App Invariants Layout.



End ModalForm.

(** ** Counting bookings *)

Section Counts.

Import App.

Lemma monthly_foldl (bookings : list Booking) (prefix : string)
    (counts : Hall -> Z) (hall : Hall) :
  foldl (fun counts booking =>
           if JsNum.startsWith (date booking) prefix
           then fun hall => if decide (hall = hallId booking)
                            then counts hall + 1 else counts hall
           else counts)
        counts bookings hall
  = counts hall
    + Js.len (List.filter
                (fun b => JsNum.startsWith (date b) prefix
                          && bool_decide (hallId b = hall)) bookings).
Proof.
  revert counts. induction bookings as [|b rest IH]; intros counts; simpl.
  { unfold Js.len. simpl. lia. }
  rewrite IH. destruct (JsNum.startsWith (date b) prefix); simpl; [|done].
  destruct (decide (hall = hallId b)) as [->|Hne].
  - rewrite bool_decide_eq_true_2 by done.
    unfold Js.len. simpl length. lia.
  - rewrite bool_decide_eq_false_2 by done. done.
Qed.

Lemma len_filter_by_hall (P : Booking -> bool) (bookings : list Booking) :
  Js.len (List.filter P bookings)
  = Js.len (List.filter (fun b => P b && bool_decide (hallId b = AlWaha)) bookings)
    + Js.len (List.filter (fun b => P b && bool_decide (hallId b = AlDana)) bookings).
Proof.
  unfold Js.len. induction bookings as [|b rest IH]; simpl; [done|].
  destruct (P b); simpl; [|done].
  destruct (hallId b); simpl; lia.
Qed.

(** X6. The counter of a hall for the month on screen is the number of
    bookings of that hall whose date starts with the year and the
    two-digit month, and the total of the counters is the number of
    bookings of that month: each is counted once. *)
Theorem monthly_counts (bookings : list Booking) (year month0 : Z) (hall : Hall) :
  AppStats.monthlyBookingCounts bookings year month0 hall
    = Js.len (List.filter
                (fun b => JsNum.startsWith (date b)
                            (AppStats.yearMonthPrefix year month0)
                          && bool_decide (hallId b = hall)) bookings) /\
  AppStats.totalMonthlyBookings
      (AppStats.monthlyBookingCounts bookings year month0)
    = Js.len (List.filter
                (fun b => JsNum.startsWith (date b)
                            (AppStats.yearMonthPrefix year month0)) bookings).
Proof.
  unfold AppStats.monthlyBookingCounts, AppStats.totalMonthlyBookings.
  split; [by rewrite monthly_foldl|].
  simpl. rewrite !monthly_foldl.
  rewrite (len_filter_by_hall
             (fun b => JsNum.startsWith (date b)
                         (AppStats.yearMonthPrefix year month0))).
  lia.
Qed.

Lemma byHall_init (halls : list Hall) (acc : gmap Hall Z) (hall : Hall) :
  foldl (fun acc h => <[h := 0]> acc) acc halls !! hall
  = if decide (hall ∈ halls) then Some 0 else acc !! hall.
Proof.
  revert acc. induction halls as [|h rest IH]; intros acc; cbn [foldl].
  { destruct (decide (hall ∈ [])) as [Hin%elem_of_nil|]; done. }
  rewrite IH. destruct (decide (hall ∈ rest)) as [Hin|Hnin].
  - destruct (decide (hall ∈ h :: rest)) as [_|Hnot]; [done|].
    destruct Hnot. by right.
  - destruct (decide (hall = h)) as [->|Hne].
    + rewrite lookup_insert_eq.
      destruct (decide (h ∈ h :: rest)) as [_|Hnot]; [done|].
      destruct Hnot. by left.
    + rewrite lookup_insert_ne by done.
      destruct (decide (hall ∈ h :: rest)) as [[?|?]%elem_of_cons|_]; done.
Qed.

Lemma byHall_count (bookings : list Booking) (acc : gmap Hall Z) (hall : Hall) :
  foldl (fun acc b => <[hallId b := default 0 (acc !! hallId b) + 1]> acc)
        acc bookings !! hall
  = if decide (List.filter (fun b => bool_decide (hallId b = hall)) bookings = [])
    then acc !! hall
    else Some (default 0 (acc !! hall)
               + Js.len (List.filter (fun b => bool_decide (hallId b = hall))
                                     bookings)).
Proof.
  revert acc. induction bookings as [|b rest IH]; intros acc;
    cbn [foldl List.filter].
  { by destruct (decide (@nil Booking = [])). }
  rewrite IH. destruct (decide (hallId b = hall)) as [<-|Hne].
  - rewrite bool_decide_eq_true_2 by done. rewrite lookup_insert_eq.
    destruct (decide (b :: _ = [])) as [?|_]; [done|].
    unfold Js.len.
    destruct (decide (List.filter _ rest = [])) as [->|_];
      simpl; f_equal; lia.
  - rewrite bool_decide_eq_false_2 by done. rewrite lookup_insert_ne by done.
    done.
Qed.

(** X7. The dashboard shows for every hall of its list the number of
    bookings of that hall, zero included, and has no entry only for a hall
    that is not in the list and has no booking; for the two halls of the
    application these are the totals of the ticker, and they add up to the
    number of bookings. *)
Theorem hall_counts (halls : list Hall) (bookings : list Booking) (hall : Hall) :
  (hall ∈ halls ->
   Dashboard.byHall halls bookings !! hall
   = Some (Js.len (List.filter (fun b => bool_decide (hallId b = hall)) bookings))) /\
  (Dashboard.byHall halls bookings !! hall = None <->
   (hall ∉ halls) /\ forall b, b ∈ bookings -> hallId b <> hall) /\
  Dashboard.byHall AppStats.halls bookings !! AlWaha
    = Some (AppStats.wahaTotal bookings) /\
  Dashboard.byHall AppStats.halls bookings !! AlDana
    = Some (AppStats.danaTotal bookings) /\
  AppStats.wahaTotal bookings + AppStats.danaTotal bookings
    = Dashboard.totalBookings bookings.
Proof.
  assert (forall hs h, h ∈ hs ->
            Dashboard.byHall hs bookings !! h
            = Some (Js.len (List.filter (fun b => bool_decide (hallId b = h))
                                        bookings))) as Hshown.
  { intros hs h Hin. unfold Dashboard.byHall.
    rewrite byHall_count, byHall_init.
    destruct (decide (h ∈ hs)) as [_|?]; [|done].
    by destruct (decide _) as [->|_]. }
  split; [apply Hshown|]. split.
  - unfold Dashboard.byHall. rewrite byHall_count, byHall_init.
    destruct (decide (List.filter _ bookings = [])) as [Hnil|Hsome].
    + destruct (decide (hall ∈ halls)) as [Hin|Hnin].
      * split; [done|]. by intros [? _].
      * rewrite lookup_empty. split; [|done]. intros _. split; [done|].
        intros b Hb Hhall.
        assert (In b (List.filter (fun b => bool_decide (hallId b = hall))
                                  bookings)) as Hf.
        { apply filter_In. split; [by apply list_elem_of_In|].
          by apply bool_decide_eq_true_2. }
        by rewrite Hnil in Hf.
    + split; [done|]. intros [_ Hnone]. destruct Hsome.
      destruct (List.filter _ bookings) as [|b rest] eqn:Hf; [done|].
      assert (In b (List.filter (fun b => bool_decide (hallId b = hall))
                                bookings)) as Hb by (rewrite Hf; by left).
      apply filter_In in Hb as [Hb Hhall].
      apply bool_decide_eq_true_1 in Hhall.
      by destruct (Hnone b (proj2 (list_elem_of_In _ _) Hb)).
  - split; [apply Hshown; unfold AppStats.halls; by left|].
    split; [apply Hshown; unfold AppStats.halls; by right; left|].
    unfold AppStats.wahaTotal, AppStats.danaTotal, Dashboard.totalBookings.
    pose proof (len_filter_by_hall (fun _ => true) bookings) as Hsplit.
    simpl in Hsplit. rewrite <- Hsplit. f_equal.
    clear. induction bookings as [|b rest IH]; simpl; [done|]. by rewrite IH.
Qed.

Lemma hall_counts_witness :
  AlDana ∈ [AlDana] /\
  Dashboard.byHall [AlDana] [Samples.bookingA; Samples.bookingC] !! AlDana
    = Some 0 /\
  Dashboard.byHall [AlDana] [Samples.bookingA; Samples.bookingC] !! AlWaha
    = Some 2.
Proof.
  assert (AlDana ∈ [AlDana]) as Hin by constructor.
  split; [exact Hin|]. split.
  - exact (proj1 (hall_counts [AlDana] [Samples.bookingA; Samples.bookingC]
                              AlDana) Hin).
  - reflexivity.
Defined.

End Counts.

(** ** The colours of the bookings *)

Section Colours.

Import BookingColors.

Lemma get_palette (i : Z) :
  0 <= i < 10 ->
  exists color, Js.get bookingColors i = Some color /\ color ∈ bookingColors.
Proof.
  intros Hi. unfold Js.get. destruct (Z.ltb_spec i 0); [lia|].
  destruct (bookingColors !! Z.to_nat i) as [color|] eqn:Hc.
  - exists color. split; [done|]. by eapply list_elem_of_lookup_2.
  - apply lookup_ge_None in Hc. simpl in Hc. lia.
Qed.

Lemma next_index (last : Z) :
  -1 <= last < 10 ->
  JsNum.rem (last + 1) (Js.len bookingColors) = (last + 1) mod 10 /\
  0 <= (last + 1) mod 10 < 10.
Proof.
  intros Hl. unfold JsNum.rem, Js.len.
  change (Z.of_nat (length bookingColors)) with 10.
  rewrite Z.rem_mod_nonneg by lia. split; [done|].
  apply Z.mod_pos_bound. lia.
Qed.

Lemma getBookingColor_known (bookingId : string) (refs : Refs)
    (stored : option Color) :
  bookingColorMap refs !! bookingId = Some stored ->
  getBookingColor bookingId refs = (stored, refs).
Proof. intros Hk. unfold getBookingColor. rewrite Hk. cbv zeta. by rewrite Hk. Qed.

Lemma getBookingColor_new (bookingId : string) (refs : Refs) :
  bookingColorMap refs !! bookingId = None ->
  getBookingColor bookingId refs
  = (Js.get bookingColors
       (JsNum.rem (lastColorIndex refs + 1) (Js.len bookingColors)),
     {| bookingColorMap :=
          <[bookingId := Js.get bookingColors
                           (JsNum.rem (lastColorIndex refs + 1)
                                      (Js.len bookingColors))]>
            (bookingColorMap refs);
        lastColorIndex :=
          JsNum.rem (lastColorIndex refs + 1) (Js.len bookingColors) |}).
Proof.
  intros Hn. unfold getBookingColor. rewrite Hn. cbv zeta.
  cbn [bookingColorMap]. by rewrite lookup_insert_eq.
Qed.

Lemma getBookingColor_ok (bookingId : string) (refs : Refs) :
  refs_ok refs -> refs_ok (getBookingColor bookingId refs).2.
Proof.
  intros [Hlast Hmap].
  destruct (bookingColorMap refs !! bookingId) as [stored|] eqn:Hk.
  - by rewrite (getBookingColor_known _ _ _ Hk).
  - rewrite (getBookingColor_new _ _ Hk).
    destruct (next_index _ Hlast) as [-> Hnext]. split; simpl; [lia|].
    intros id' stored'. destruct (decide (bookingId = id')) as [->|Hne].
    + rewrite lookup_insert_eq. intros [= <-]. by apply get_palette.
    + rewrite lookup_insert_ne by done. apply Hmap.
Qed.

Lemma getBookingColor_keeps (bookingId other : string) (refs : Refs)
    (stored : option Color) :
  bookingColorMap refs !! other = Some stored ->
  bookingColorMap (getBookingColor bookingId refs).2 !! other = Some stored.
Proof.
  intros Ho.
  destruct (bookingColorMap refs !! bookingId) as [stored'|] eqn:Hk.
  - by rewrite (getBookingColor_known _ _ _ Hk).
  - rewrite (getBookingColor_new _ _ Hk). simpl.
    rewrite lookup_insert_ne; [done|]. intros ->. congruence.
Qed.

Lemma askAll_cons (bookingId : string) (rest : list string) (refs : Refs) :
  askAll (bookingId :: rest) refs
  = askAll rest (getBookingColor bookingId refs).2.
Proof. reflexivity. Qed.

Lemma askAll_ok (bookingIds : list string) (refs : Refs) :
  refs_ok refs -> refs_ok (askAll bookingIds refs).
Proof.
  revert refs. induction bookingIds as [|bookingId rest IH]; intros refs Hok;
    [done|].
  simpl. apply IH. by apply getBookingColor_ok.
Qed.

Lemma askAll_keeps (bookingIds : list string) (other : string) (refs : Refs)
    (stored : option Color) :
  bookingColorMap refs !! other = Some stored ->
  bookingColorMap (askAll bookingIds refs) !! other = Some stored.
Proof.
  revert refs. induction bookingIds as [|bookingId rest IH]; intros refs Ho;
    [done|].
  simpl. apply IH. by apply getBookingColor_keeps.
Qed.

Lemma initialRefs_ok : refs_ok initialRefs.
Proof. split; simpl; [lia|]. intros ? ?. by rewrite lookup_empty. Qed.

(** X8. A booking keeps its colour: whatever colours were asked for before
    and in between, the second request for an id returns the colour of the
    first, and that colour is one of the palette, never [undefined]. *)
Theorem colour_is_stable (before between : list string) (bookingId : string) :
  let first := getBookingColor bookingId (askAll before initialRefs) in
  let second := getBookingColor bookingId (askAll between first.2) in
  second.1 = first.1 /\
  exists color, first.1 = Some color /\ color ∈ bookingColors.
Proof.
  intros first second.
  assert (refs_ok first.2) as [_ Hmap]
    by apply getBookingColor_ok, askAll_ok, initialRefs_ok.
  assert (bookingColorMap first.2 !! bookingId = Some first.1) as Hstored.
  { unfold first.
    destruct (bookingColorMap (askAll before initialRefs) !! bookingId)
      as [stored|] eqn:Hk.
    - by rewrite (getBookingColor_known _ _ _ Hk).
    - rewrite (getBookingColor_new _ _ Hk). simpl. by rewrite lookup_insert_eq. }
  split; [|by apply (Hmap bookingId)].
  unfold second.
  by rewrite (getBookingColor_known _ _ _
                (askAll_keeps between _ _ _ Hstored)).
Qed.

Lemma askAll_round_robin (bookingIds : list string) (refs : Refs)
    (k : nat) (bookingId : string) :
  -1 <= lastColorIndex refs < 10 ->
  NoDup bookingIds ->
  (forall id', id' ∈ bookingIds -> bookingColorMap refs !! id' = None) ->
  bookingIds !! k = Some bookingId ->
  bookingColorMap (askAll bookingIds refs) !! bookingId
  = Some (Js.get bookingColors ((lastColorIndex refs + 1 + Z.of_nat k) mod 10)).
Proof.
  revert refs k. induction bookingIds as [|id0 rest IH];
    intros refs k Hlast Hnd Hnew Hk; [done|].
  apply NoDup_cons in Hnd as [Hid0 Hnd].
  assert (bookingColorMap refs !! id0 = None) as Hn by (apply Hnew; by left).
  destruct (next_index _ Hlast) as [Hrem Hnext].
  rewrite askAll_cons, (getBookingColor_new _ _ Hn). cbn [snd]. rewrite Hrem.
  destruct k as [|k]; simpl in Hk.
  - injection Hk as <-. apply askAll_keeps. cbn [bookingColorMap].
    rewrite lookup_insert_eq. do 2 f_equal. f_equal. lia.
  - rewrite (IH _ k); cbn [lastColorIndex bookingColorMap]; [|lia|done| |done].
    + do 2 f_equal.
      replace ((lastColorIndex refs + 1) mod 10 + 1 + Z.of_nat k)
        with ((lastColorIndex refs + 1) mod 10 + (1 + Z.of_nat k)) by lia.
      rewrite Zplus_mod_idemp_l. f_equal. lia.
    + intros id' Hin.
      rewrite lookup_insert_ne; [apply Hnew; by right|]. by intros ->.
Qed.

(** X9. The colours go round the palette: of bookings whose colours are
    asked for one after the other for the first time, the one at position
    [k] gets the entry [k mod 10] of the palette; so two of them less than
    ten positions apart differ in colour, and the eleventh has the colour
    of the first. *)
Theorem colours_go_round (bookingIds : list string) (k : nat)
    (bookingId : string) :
  NoDup bookingIds ->
  bookingIds !! k = Some bookingId ->
  (getBookingColor bookingId (askAll bookingIds initialRefs)).1
    = Js.get bookingColors (Z.of_nat k mod 10) /\
  (forall (k' : nat) (other : string),
     bookingIds !! k' = Some other ->
     (k < k' < k + 10)%nat ->
     (getBookingColor other (askAll bookingIds initialRefs)).1
       <> (getBookingColor bookingId (askAll bookingIds initialRefs)).1) /\
  (forall other,
     bookingIds !! (k + 10)%nat = Some other ->
     (getBookingColor other (askAll bookingIds initialRefs)).1
       = (getBookingColor bookingId (askAll bookingIds initialRefs)).1).
Proof.
  intros Hnd Hk.
  assert (forall (j : nat) (id' : string),
            bookingIds !! j = Some id' ->
            (getBookingColor id' (askAll bookingIds initialRefs)).1
            = Js.get bookingColors (Z.of_nat j mod 10)) as Hcolour.
  { intros j id' Hj.
    rewrite (getBookingColor_known id' _
               (Js.get bookingColors (Z.of_nat j mod 10))); [done|].
    rewrite (askAll_round_robin bookingIds initialRefs j id');
      [|simpl; lia|done|intros ? _; apply lookup_empty|done].
    done. }
  split; [by apply Hcolour|]. split.
  - intros k' other Hk' Hrange.
    rewrite (Hcolour _ _ Hk), (Hcolour _ _ Hk').
    assert (Z.of_nat k mod 10 <> Z.of_nat k' mod 10) as Hdiff.
    { intros Heq.
      assert ((Z.of_nat k' - Z.of_nat k) mod 10 = 0) as Hz.
      { rewrite Zminus_mod, Heq, Z.sub_diag. done. }
      apply Z.mod_divide in Hz as [q Hq]; lia. }
    pose proof (Z.mod_pos_bound (Z.of_nat k) 10 ltac:(lia)) as Hb.
    pose proof (Z.mod_pos_bound (Z.of_nat k') 10 ltac:(lia)) as Hb'.
    unfold Js.get.
    destruct (Z.ltb_spec (Z.of_nat k' mod 10) 0); [lia|].
    destruct (Z.ltb_spec (Z.of_nat k mod 10) 0); [lia|].
    intros Heq. apply Hdiff.
    assert (NoDup bookingColors) as Hpal
      by (apply (bool_decide_unpack _); by vm_compute).
    destruct (bookingColors !! Z.to_nat (Z.of_nat k mod 10)) as [color|] eqn:Hc.
    + assert (Z.to_nat (Z.of_nat k' mod 10) = Z.to_nat (Z.of_nat k mod 10))
        as Hnat by (eapply NoDup_lookup; [exact Hpal| |]; [exact Heq|exact Hc]).
      lia.
    + apply lookup_ge_None in Hc. simpl in Hc. lia.
  - intros other Ho. rewrite (Hcolour _ _ Hk), (Hcolour _ _ Ho). f_equal.
    rewrite Nat2Z.inj_add. change (Z.of_nat 10) with (1 * 10).
    by rewrite Z.mod_add.
Qed.

Lemma colours_go_round_witness :
  NoDup ["b1"; "b2"; "b3"]%string /\
  (getBookingColor "b2" (askAll ["b1"; "b2"; "b3"]%string initialRefs)).1
    = Some (mkColor "bg-teal-200" "hover:bg-teal-300" "text-teal-800").
Proof.
  assert (NoDup ["b1"; "b2"; "b3"]%string) as Hnd
    by (apply (bool_decide_unpack _); exact I).
  split; [exact Hnd|].
  exact (proj1 (colours_go_round ["b1"; "b2"; "b3"]%string 1 "b2" Hnd eq_refl)).
Defined.

End Colours.

(** ** The sheet of the export *)

Section Sheet.

Import App Layout.

Lemma merges_in_row_weaken (row lo lo' hi : Z) (ranges : list XLSX.Range) :
  lo' <= lo -> merges_in_row row lo hi ranges ->
  merges_in_row row lo' hi ranges.
Proof.
  intros Hlo. destruct ranges as [|range rest]; [done|].
  simpl. intros (?&?&?&?&?&?). repeat split; try done. lia.
Qed.

Lemma merges_in_row_elem (row lo hi : Z) (ranges : list XLSX.Range)
    (range : XLSX.Range) :
  merges_in_row row lo hi ranges -> range ∈ ranges ->
  lo <= XLSX.c (XLSX.s range) /\
  XLSX.c (XLSX.s range) < XLSX.c (XLSX.e range) <= hi.
Proof.
  revert lo. induction ranges as [|r0 rest IH]; intros lo Hok Hin.
  { by apply elem_of_nil in Hin. }
  simpl in Hok. destruct Hok as (_&_&Hlo&Hlt&Hhi&Hrest).
  apply elem_of_cons in Hin as [->|Hin]; [lia|].
  destruct (IH _ Hrest Hin). lia.
Qed.

(** What one turn of the loop pushes, in a grid without repeated labels: a
    string, then a [null] for each further column of the span, with one
    merge range over the span when it is wider than a column. *)
Lemma exportStep_shape (slots : list string) (dayBookings : list Booking)
    (rowIndex i : Z) :
  NoDup slots -> 0 <= i < Js.len (displayTimeSlots slots) ->
  exists (str : string) (span : Z),
    1 <= span /\ i + span <= Js.len (displayTimeSlots slots) /\
    exportStep slots dayBookings rowIndex i
    = (VString str :: replicate (Z.to_nat (span - 1)) VNull,
       if span >? 1
       then [XLSX.mkRange (XLSX.mkAddress rowIndex (3 + i))
                          (XLSX.mkAddress rowIndex (3 + i + span - 1))]
       else [],
       i + span).
Proof.
  intros Hnd Hi.
  destruct (exportStep_spec slots dayBookings rowIndex i Hnd Hi) as [Hnext Hmax].
  unfold exportStep in *.
  destruct (find _ dayBookings) as [booking|] eqn:Hfind.
  - set (span := if Js.indexOf slots (endTime booking)
                      >? Js.indexOf slots (time booking)
                 then Js.indexOf slots (endTime booking)
                      - Js.indexOf slots (time booking) else 1) in *.
    exists (department booking), span. simpl in Hmax.
    split; [|done]. unfold span.
    destruct (Z.gtb_spec (Js.indexOf slots (endTime booking))
                         (Js.indexOf slots (time booking))); lia.
  - exists EmptyString, 1. simpl in Hmax. by repeat split; try lia.
Qed.

(** The merge ranges of the slot columns of a row, in a grid without
    repeated labels: they lie on the row, from left to right without
    overlap, inside the slot columns, and each covers a string followed by
    [null]s. *)
Lemma exportFrom_merges (slots : list string) (dayBookings : list Booking)
    (rowIndex i : Z) :
  NoDup slots -> 0 <= i <= Js.len (displayTimeSlots slots) ->
  merges_in_row rowIndex (3 + i) (3 + Js.len (displayTimeSlots slots) - 1)
                (exportFrom slots dayBookings rowIndex i).2 /\
  forall range, range ∈ (exportFrom slots dayBookings rowIndex i).2 ->
    (exists str,
       Js.get (exportFrom slots dayBookings rowIndex i).1
              (XLSX.c (XLSX.s range) - 3 - i) = Some (VString str)) /\
    forall col, XLSX.c (XLSX.s range) < col <= XLSX.c (XLSX.e range) ->
      Js.get (exportFrom slots dayBookings rowIndex i).1 (col - 3 - i)
        = Some VNull.
Proof.
  intros Hnd. revert i.
  apply (exportFrom_loop_ind slots dayBookings rowIndex (fun i out =>
    0 <= i <= Js.len (displayTimeSlots slots) ->
    merges_in_row rowIndex (3 + i) (3 + Js.len (displayTimeSlots slots) - 1)
                  out.2 /\
    forall range, range ∈ out.2 ->
      (exists str, Js.get out.1 (XLSX.c (XLSX.s range) - 3 - i)
                   = Some (VString str)) /\
      forall col, XLSX.c (XLSX.s range) < col <= XLSX.c (XLSX.e range) ->
        Js.get out.1 (col - 3 - i) = Some VNull)).
  - intros i _ _. split; [done|]. intros range Hin. by apply elem_of_nil in Hin.
  - intros i Hi IH Hrange.
    destruct (exportStep_shape slots dayBookings rowIndex i Hnd)
      as (str & span & Hspan & Hmax & Hstep); [lia|].
    rewrite Hstep in *. cbn [fst snd] in *.
    destruct IH as [IHrow IHcells]; [lia|].
    set (rest := exportFrom slots dayBookings rowIndex (i + span)) in *.
    assert (length (VString str :: replicate (Z.to_nat (span - 1)) VNull)
            = Z.to_nat span) as Hlen.
    { simpl. rewrite length_replicate. lia. }
    assert (forall range, range ∈ rest.2 ->
              (exists str', Js.get ((VString str
                                       :: replicate (Z.to_nat (span - 1)) VNull)
                                    ++ rest.1)
                                   (XLSX.c (XLSX.s range) - 3 - i)
                            = Some (VString str')) /\
              forall col, XLSX.c (XLSX.s range) < col <= XLSX.c (XLSX.e range) ->
                Js.get ((VString str :: replicate (Z.to_nat (span - 1)) VNull)
                          ++ rest.1) (col - 3 - i) = Some VNull) as Hshift.
    { intros range Hin.
      destruct (merges_in_row_elem _ _ _ _ _ IHrow Hin) as [Hlo Hhi].
      destruct (IHcells range Hin) as [[str' Hs] Hnull].
      assert (forall col, 3 + (i + span) <= col ->
                Js.get ((VString str :: replicate (Z.to_nat (span - 1)) VNull)
                          ++ rest.1) (col - 3 - i)
                = Js.get rest.1 (col - 3 - (i + span))) as Hget.
      { intros col Hcol. unfold Js.get.
        destruct (Z.ltb_spec (col - 3 - i) 0); [lia|].
        destruct (Z.ltb_spec (col - 3 - (i + span)) 0); [lia|].
        rewrite lookup_app_r by lia. f_equal. lia. }
      split.
      - exists str'. by rewrite Hget.
      - intros col Hcol. rewrite Hget by lia. by apply Hnull. }
    destruct (Z.gtb_spec span 1) as [Hwide|Hone].
    + change ([?r] ++ ?l) with (r :: l). split.
      * simpl. repeat split; try lia.
        replace (3 + i + span - 1 + 1) with (3 + (i + span)) by lia. done.
      * intros range [->|Hin]%elem_of_cons; [|by apply Hshift].
        cbn [XLSX.s XLSX.e XLSX.c]. split.
        -- exists str. by replace (3 + i - 3 - i) with 0 by lia.
        -- intros col Hcol. unfold Js.get.
           destruct (Z.ltb_spec (col - 3 - i) 0); [lia|].
           rewrite lookup_app_l by lia.
           replace (Z.to_nat (col - 3 - i))
             with (S (Z.to_nat (col - 3 - i - 1))) by lia.
           cbn [lookup list_lookup]. simpl.
           apply lookup_replicate_2. lia.
    + change ([] ++ ?l) with l. split; [|done].
      eapply merges_in_row_weaken; [|exact IHrow]. lia.
Qed.

Lemma exportDays_dayRows (formatToYYYYMMDD formatDateDisplay : Date -> string)
    (filteredBookings : list Booking) (days : list Date) (index : Z)
    (sheet : list (list SheetValue) * list XLSX.Range) :
  exportDays formatToYYYYMMDD formatDateDisplay filteredBookings days index sheet
  = (sheet.1 ++ (dayRows formatToYYYYMMDD formatDateDisplay filteredBookings
                         days (Js.len sheet.1) index).*1,
     sheet.2 ++ concat (dayRows formatToYYYYMMDD formatDateDisplay
                                filteredBookings days (Js.len sheet.1) index).*2).
Proof.
  revert index sheet. induction days as [|day rest IH]; intros index sheet.
  { simpl. rewrite !app_nil_r. by destruct sheet. }
  cbn [exportDays dayRows]. rewrite IH. cbn [fst snd fmap list_fmap concat].
  replace (Js.len (sheet.1 ++ [_])) with (Js.len sheet.1 + 1)
    by (unfold Js.len; rewrite length_app; simpl; lia).
  by rewrite <- !app_assoc.
Qed.

Lemma dayRows_lookup (formatToYYYYMMDD formatDateDisplay : Date -> string)
    (filteredBookings : list Booking) (days : list Date) (rowIndex index : Z)
    (k : nat) :
  dayRows formatToYYYYMMDD formatDateDisplay filteredBookings days
          rowIndex index !! k
  = (fun day => exportRow formatToYYYYMMDD formatDateDisplay filteredBookings
                          (rowIndex + Z.of_nat k) (index + Z.of_nat k) day)
      <$> days !! k.
Proof.
  revert rowIndex index k. induction days as [|day rest IH];
    intros rowIndex index k; [done|].
  destruct k as [|k]; simpl.
  - by rewrite !Z.add_0_r.
  - rewrite IH. do 2 f_equal; lia.
Qed.

Lemma exportRow_length (formatToYYYYMMDD formatDateDisplay : Date -> string)
    (filteredBookings : list Booking) (rowIndex index : Z) (day : Date) :
  Js.len (exportRow formatToYYYYMMDD formatDateDisplay filteredBookings
                    rowIndex index day).1
  = Js.len (headerRow2 timeSlots).
Proof.
  unfold exportRow. cbv zeta. cbn [fst]. unfold exportSlots.
  set (dayBookings := List.filter _ filteredBookings).
  pose proof (len_exportFrom timeSlots dayBookings rowIndex 0 timeSlots_NoDup)
    as Hlen.
  unfold Js.len in *. rewrite !length_app. simpl length in *.
  rewrite !Nat2Z.inj_add, Hlen; [done|]. lia.
Qed.

(** X10. The sheet of the export is a rectangle under its header: four
    rows, then a row for each day of the month, in order; the row of the
    [k]-th day has as many cells as the header row has labels, starts with
    the number [k + 1] and ends with the notes of the bookings of the day
    in the selected hall, which are the notes the row of that day shows in
    a table that renders. *)
Theorem sheet_rows (formatToYYYYMMDD formatDateDisplay : Date -> string)
    (title : string) (daysInMonth : list Date) (st : State) :
  let sheetData :=
    (handleExportToExcel formatToYYYYMMDD formatDateDisplay title
                         daysInMonth st).1 in
  Js.len sheetData = 4 + Js.len daysInMonth /\
  take 4 sheetData
    = [[VString title]; []; headerRow1; headerRow2 timeSlots] /\
  forall (k : nat) (day : Date),
    daysInMonth !! k = Some day ->
    exists row,
      sheetData !! (4 + k)%nat = Some row /\
      Js.len row = Js.len (headerRow2 timeSlots) /\
      row !! 0%nat = Some (VNumber (Z.of_nat k + 1)) /\
      row !! 2%nat = Some (VString (formatDateDisplay day)) /\
      last row
        = Some (VString (ScheduleTable.rowNotes
                           (List.filter
                              (fun b => String.eqb (date b) (formatToYYYYMMDD day))
                              (List.filter
                                 (fun b => bool_decide (hallId b = selectedHall st))
                                 (bookings st))))) /\
      forall rows,
        ScheduleTable.tableRows formatToYYYYMMDD timeSlots
          (List.filter (fun b => bool_decide (hallId b = selectedHall st))
                       (bookings st))
          daysInMonth = Some rows ->
        exists cells notes,
          rows !! k = Some (cells, notes) /\ last row = Some (VString notes).
Proof.
  intros sheetData. unfold sheetData, handleExportToExcel. cbv zeta.
  rewrite exportDays_dayRows. cbn [fst snd].
  set (filteredBookings := List.filter _ (bookings st)).
  set (rows := dayRows _ _ filteredBookings daysInMonth _ 0).
  assert (length rows = length daysInMonth) as Hrows.
  { unfold rows. generalize (Js.len [[VString title]; []; headerRow1;
                                      headerRow2 timeSlots]) 0.
    induction daysInMonth as [|d rest IH]; intros r i; simpl; [done|].
    by rewrite IH. }
  split.
  { unfold Js.len. rewrite length_app, length_fmap, Hrows. simpl length. lia. }
  split; [done|].
  intros k day Hk.
  exists (exportRow formatToYYYYMMDD formatDateDisplay filteredBookings
                    (4 + Z.of_nat k) (0 + Z.of_nat k) day).1.
  split.
  { rewrite lookup_app_r by (simpl; lia).
    replace (4 + k - length [[VString title]; []; headerRow1;
                              headerRow2 timeSlots])%nat with k
      by (simpl; lia).
    rewrite list_lookup_fmap. unfold rows. rewrite dayRows_lookup, Hk. done. }
  split; [apply exportRow_length|].
  split; [unfold exportRow; simpl; do 2 f_equal; lia|].
  split; [done|]. split; [apply rowNotes_export|].
  intros shown Hshown. eexists _, _.
  split; [exact (tableRows_lookup _ _ _ _ _ _ _ Hshown Hk)|].
  apply rowNotes_export.
Qed.

Lemma sheet_rows_witness :
  exists row,
    (handleExportToExcel DateUtils.formatToYYYYMMDD DateUtils.formatToYYYYMMDD
       "title" [20156; 20157] Samples.editingA).1 !! 5%nat = Some row /\
    Js.len row = 15 /\ row !! 0%nat = Some (VNumber 2).
Proof.
  destruct (sheet_rows DateUtils.formatToYYYYMMDD DateUtils.formatToYYYYMMDD
              "title" [20156; 20157] Samples.editingA)
    as (_ & _ & Hrow).
  destruct (Hrow 1%nat 20157 eq_refl) as (row & H1 & H2 & H3 & _).
  exists row. split; [exact H1|]. split; [exact H2|exact H3].
Defined.

(** X11. The merge ranges of the export: the title over all columns of row
    0, the group header over the slot columns of row 2, then those of the
    days; the ranges of the [k]-th day lie on its row [4 + k], from left to
    right without overlap, inside the slot columns 3 to 13, each at least
    two columns wide, over a string followed by [null]s. *)
Theorem sheet_merges (formatToYYYYMMDD formatDateDisplay : Date -> string)
    (title : string) (daysInMonth : list Date) (st : State) :
  let sheet :=
    handleExportToExcel formatToYYYYMMDD formatDateDisplay title
                        daysInMonth st in
  exists perDay : list (list XLSX.Range),
    sheet.2
      = [XLSX.mkRange (XLSX.mkAddress 0 0) (XLSX.mkAddress 0 14);
         XLSX.mkRange (XLSX.mkAddress 2 3) (XLSX.mkAddress 2 13)]
        ++ concat perDay /\
    length perDay = length daysInMonth /\
    forall (k : nat) (ranges : list XLSX.Range),
      perDay !! k = Some ranges ->
      merges_in_row (4 + Z.of_nat k) 3 13 ranges /\
      exists row,
        sheet.1 !! (4 + k)%nat = Some row /\
        forall range, range ∈ ranges -> merged_cells_blank row range.
Proof.
  intros sheet. unfold sheet, handleExportToExcel. cbv zeta.
  rewrite exportDays_dayRows. cbn [fst snd].
  set (filteredBookings := List.filter _ (bookings st)).
  set (rows := dayRows _ _ filteredBookings daysInMonth _ 0).
  assert (length rows = length daysInMonth) as Hrows.
  { unfold rows. generalize (Js.len [[VString title]; []; headerRow1;
                                      headerRow2 timeSlots]) 0.
    induction daysInMonth as [|d rest IH]; intros r i; simpl; [done|].
    by rewrite IH. }
  exists rows.*2. split; [done|]. split; [by rewrite length_fmap|].
  intros k ranges Hk. rewrite list_lookup_fmap in Hk.
  unfold rows in Hk. rewrite dayRows_lookup in Hk.
  destruct (daysInMonth !! k) as [day|] eqn:Hday; [|done].
  injection Hk as <-.
  change (Js.len [[VString title]; []; headerRow1; headerRow2 timeSlots])
    with 4.
  set (dayBookings :=
         List.filter (fun b => String.eqb (date b) (formatToYYYYMMDD day))
                     filteredBookings).
  destruct (exportFrom_merges timeSlots dayBookings (4 + Z.of_nat k) 0
              timeSlots_NoDup) as [Hrow Hcells]; [by vm_compute|].
  split; [exact Hrow|].
  exists (exportRow formatToYYYYMMDD formatDateDisplay filteredBookings
                    (4 + Z.of_nat k) (0 + Z.of_nat k) day).1.
  split.
  { rewrite lookup_app_r by (simpl; lia).
    replace (4 + k - length [[VString title]; []; headerRow1;
                              headerRow2 timeSlots])%nat with k
      by (simpl; lia).
    rewrite list_lookup_fmap. fold rows. unfold rows.
    rewrite dayRows_lookup, Hday. done. }
  intros range Hin.
  destruct (merges_in_row_elem _ _ _ _ _ Hrow Hin) as [Hlo Hhi].
  change (Js.len (displayTimeSlots timeSlots)) with 11 in Hhi.
  destruct (Hcells range Hin) as [[str Hs] Hnull].
  pose proof (len_exportFrom timeSlots dayBookings (4 + Z.of_nat k) 0
                timeSlots_NoDup ltac:(by vm_compute)) as Hlen.
  assert (forall col, 3 <= col <= 13 ->
            Js.get (exportRow formatToYYYYMMDD formatDateDisplay
                              filteredBookings (4 + Z.of_nat k)
                              (0 + Z.of_nat k) day).1 col
            = Js.get (exportFrom timeSlots dayBookings (4 + Z.of_nat k) 0).1
                     (col - 3 - 0)) as Hget.
  { intros col Hcol. unfold exportRow. cbv zeta. cbn [fst].
    unfold exportSlots. fold dayBookings. unfold Js.get.
    destruct (Z.ltb_spec col 0); [lia|].
    destruct (Z.ltb_spec (col - 3 - 0) 0); [lia|].
    rewrite lookup_app_r by (simpl; lia).
    rewrite lookup_app_l.
    - f_equal. simpl. lia.
    - unfold Js.len in Hlen. simpl in Hlen. simpl. lia. }
  split.
  - exists str. rewrite Hget by lia. done.
  - intros col Hcol. rewrite Hget by lia. by apply Hnull.
Qed.

End Sheet.

(** ** The bookings in the grid *)

Section BookingsInGrid.

Import App Invariants Layout.

Lemma indexOf_from_found (arr : list string) (x : string) (k : Z) :
  Js.indexOf_from arr x k <> -1 -> 0 <= k ->
  arr !! Z.to_nat (Js.indexOf_from arr x k - k) = Some x.
Proof.
  revert k. induction arr as [|y rest IH]; intros k Hfound Hk; [done|].
  simpl in *. destruct (String.eqb_spec y x) as [->|Hne].
  - by rewrite Z.sub_diag.
  - destruct (indexOf_from_range rest x (k + 1)) as [Hnone|Hrange]; [done|].
    replace (Z.to_nat (Js.indexOf_from rest x (k + 1) - k))
      with (S (Z.to_nat (Js.indexOf_from rest x (k + 1) - (k + 1)))) by lia.
    simpl. apply IH; [done|lia].
Qed.

Lemma indexOf_found (arr : list string) (x : string) :
  0 <= Js.indexOf arr x -> Js.get arr (Js.indexOf arr x) = Some x.
Proof.
  intros Hk. unfold Js.get. destruct (Z.ltb_spec (Js.indexOf arr x) 0); [lia|].
  unfold Js.indexOf in *.
  rewrite <- (indexOf_from_found arr x 0); [|lia|lia].
  by rewrite Z.sub_0_r.
Qed.

(** A booking cell of a row is the cell of a booking of the day, starts at
    the column of its start label and ends before the column of its end
    label. *)
Lemma booking_cell_placed (slots : list string) (dayBookings : list Booking)
    (start colSpan : Z) (b : Booking) :
  (start, ScheduleTable.BookingCell b colSpan)
    ∈ ScheduleTable.place 0 (ScheduleTable.cells slots dayBookings) ->
  b ∈ dayBookings /\ 0 <= start /\ 0 < colSpan /\
  Js.get slots start = Some (time b) /\
  Js.get slots (start + colSpan) = Some (endTime b) /\
  ScheduleTable.cellStep slots dayBookings start
    = (ScheduleTable.BookingCell b colSpan, start + colSpan).
Proof.
  intros Hin. apply place_cellsFrom in Hin as [[H0 _] Hstep]. simpl in *.
  split; [|split; [done|]].
  all: pose proof Hstep as Hcell; unfold ScheduleTable.cellStep in Hstep.
  all: destruct (find _ dayBookings) as [booking|] eqn:Hfind; [|done].
  all: destruct (Z.gtb_spec (Js.indexOf slots (endTime booking)) start);
    [|done].
  all: injection Hstep as -> <-.
  all: apply find_some in Hfind as [Hb Heq].
  - by apply list_elem_of_In.
  - split; [lia|]. unfold Js.strict_eq in Heq.
    destruct (Js.get slots start) as [label|]; [|done].
    apply String.eqb_eq in Heq as <-. split; [done|]. split; [|done].
    replace (start + (Js.indexOf slots (endTime b) - start))
      with (Js.indexOf slots (endTime b)) by lia.
    apply indexOf_found. lia.
Qed.

(** A booking of a day whose bookings are on the grid and do not overlap
    has its cell in the row. *)
Lemma booking_cell_exists (dayBookings : list Booking) (b : Booking) :
  on_grid dayBookings -> no_overlap dayBookings -> b ∈ dayBookings ->
  exists s e : nat,
    timeSlots !! s = Some (time b) /\
    timeSlots !! e = Some (endTime b) /\ (s < e)%nat /\
    (Z.of_nat s, ScheduleTable.BookingCell b (Z.of_nat e - Z.of_nat s))
      ∈ ScheduleTable.place 0 (ScheduleTable.cells timeSlots dayBookings).
Proof.
  intros Hgrid Hdis Hb. destruct (Hgrid b Hb) as (s & e & Hs & He & Hse).
  exists s, e. split; [done|]. split; [done|]. split; [done|].
  assert (e < 12)%nat as Hemax by (apply lookup_lt_Some in He; simpl in He; lia).
  assert (exists k pc,
            ScheduleTable.place 0 (ScheduleTable.cells timeSlots dayBookings)
              !! k = Some pc /\ ScheduleTable.covers pc (Z.of_nat s))
    as (k & [start c] & Hk & Hcov).
  { destruct (place_covers_once
                (ScheduleTable.cells timeSlots dayBookings) 0 (Z.of_nat s))
      as (k & (pc & Hk & Hcov) & _).
    - intros c Hc. by eapply span_cellsFrom_pos.
    - unfold ScheduleTable.cells. rewrite total_span_cellsFrom; [|by vm_compute].
      change (Js.len (ScheduleTable.displayTimeSlots timeSlots)) with 11. lia.
    - by exists k, pc. }
  apply list_elem_of_lookup_2 in Hk. unfold ScheduleTable.covers in Hcov.
  simpl in Hcov.
  assert (find (fun b' => Js.strict_eq (time b')
                            (Js.get timeSlots (Z.of_nat s))) dayBookings
          = Some b) as Hfind.
  { destruct (find _ dayBookings) as [b0|] eqn:Hf.
    - f_equal. pose proof Hf as [Hb0 Heq]%find_some.
      apply list_elem_of_In in Hb0.
      destruct (decide (b0 = b)) as [|Hne]; [done|].
      destruct (Hdis b0 b Hb0 Hb Hne).
      destruct (Hgrid b0 Hb0) as (s0 & e0 & Hs0 & He0 & Hse0).
      unfold Js.strict_eq, Js.get in Heq.
      destruct (Z.ltb_spec (Z.of_nat s) 0); [lia|].
      rewrite Nat2Z.id, Hs in Heq. apply String.eqb_eq in Heq.
      assert (s0 = s) as ->.
      { eapply NoDup_lookup; [apply timeSlots_NoDup|exact Hs0|].
        by rewrite Heq. }
      split.
      + rewrite (timeSlots_lt s e _ _ Hs0 He). by apply bool_decide_eq_true_2.
      + change (Js.gt ?x ?y) with (Js.lt y x).
        rewrite (timeSlots_lt s e0 _ _ Hs He0).
        by apply bool_decide_eq_true_2.
    - apply list_elem_of_In in Hb.
      apply (find_none _ _ Hf) in Hb. unfold Js.strict_eq, Js.get in Hb.
      destruct (Z.ltb_spec (Z.of_nat s) 0); [lia|].
      by rewrite Nat2Z.id, Hs, String.eqb_refl in Hb. }
  destruct c as [slot|b0 colSpan]; simpl in Hcov.
  + (* an empty cell cannot stand at the column of the booking *)
    assert (start = Z.of_nat s) as -> by lia.
    apply place_cellsFrom in Hk as [_ Hstep]. simpl in Hstep.
    unfold ScheduleTable.cellStep in Hstep. rewrite Hfind in Hstep.
    rewrite (indexOf_lookup timeSlots _ e timeSlots_NoDup He) in Hstep.
    destruct (Z.gtb_spec (Z.of_nat e) (Z.of_nat s)); [done|lia].
  + pose proof (booking_cell_placed _ _ _ _ _ Hk)
      as (Hb0 & Hstart & Hpos & Ht0 & He0 & Hstep).
    destruct (decide (b0 = b)) as [->|Hne].
    * (* the cell of the booking itself *)
      apply get_Some in Ht0 as [_ Ht0].
      assert (Z.to_nat start = s) as Hst
        by (eapply NoDup_lookup; [apply timeSlots_NoDup|exact Ht0|exact Hs]).
      assert (start = Z.of_nat s) as -> by lia.
      unfold ScheduleTable.cellStep in Hstep. rewrite Hfind in Hstep.
      rewrite (indexOf_lookup timeSlots _ e timeSlots_NoDup He) in Hstep.
      destruct (Z.gtb_spec (Z.of_nat e) (Z.of_nat s)); [|lia].
      by injection Hstep as <-.
    * (* the cell of another booking would overlap *)
      destruct (Hdis b0 b Hb0 Hb Hne).
      apply get_Some in Ht0 as [_ Ht0]. apply get_Some in He0 as [_ He0].
      split.
      -- rewrite (timeSlots_lt _ e _ _ Ht0 He). apply bool_decide_eq_true_2.
         lia.
      -- change (Js.gt ?x ?y) with (Js.lt y x).
         rewrite (timeSlots_lt s _ _ _ Hs He0).
         apply bool_decide_eq_true_2. lia.
Qed.

(** X12. Three facts on the row of a day. Where the bookings of the day
    start and end at labels of the grid, the end after the start, and no
    two of them overlap, the grid shows every one of them: each has a cell
    that starts at the column of its start and spans the columns up to its
    end. The other two hold for any bookings, without those conditions: a
    booking cell of the row is of a booking of the day, at the column of
    its start label and up to the column of its end label; and a booking
    has cells at one column and of one span only. *)
Theorem every_booking_has_its_cell (dayBookings : list Booking) :
  (on_grid dayBookings -> no_overlap dayBookings ->
   forall b, b ∈ dayBookings ->
     exists s e : nat,
       timeSlots !! s = Some (time b) /\
       timeSlots !! e = Some (endTime b) /\
       (Z.of_nat s, ScheduleTable.BookingCell b (Z.of_nat e - Z.of_nat s))
         ∈ ScheduleTable.place 0 (ScheduleTable.cells timeSlots dayBookings)) /\
  (forall (start colSpan : Z) (b : Booking),
     (start, ScheduleTable.BookingCell b colSpan)
       ∈ ScheduleTable.place 0 (ScheduleTable.cells timeSlots dayBookings) ->
     b ∈ dayBookings /\ 0 < colSpan /\
     Js.get timeSlots start = Some (time b) /\
     Js.get timeSlots (start + colSpan) = Some (endTime b)) /\
  (forall (start start' colSpan colSpan' : Z) (b : Booking),
     (start, ScheduleTable.BookingCell b colSpan)
       ∈ ScheduleTable.place 0 (ScheduleTable.cells timeSlots dayBookings) ->
     (start', ScheduleTable.BookingCell b colSpan')
       ∈ ScheduleTable.place 0 (ScheduleTable.cells timeSlots dayBookings) ->
     start = start' /\ colSpan = colSpan').
Proof.
  split; [|split].
  - intros Hgrid Hdis b Hb.
    destruct (booking_cell_exists dayBookings b Hgrid Hdis Hb)
      as (s & e & Hs & He & _ & Hcell).
    by exists s, e.
  - intros start colSpan b Hin.
    by destruct (booking_cell_placed _ _ _ _ _ Hin) as (?&?&?&?&?&?).
  - intros start start' colSpan colSpan' b Hin Hin'.
    destruct (booking_cell_placed _ _ _ _ _ Hin) as (_&H0&Hp&Ht&He&_).
    destruct (booking_cell_placed _ _ _ _ _ Hin') as (_&H0'&Hp'&Ht'&He'&_).
    apply get_Some in Ht as [_ Ht]. apply get_Some in Ht' as [_ Ht'].
    apply get_Some in He as [_ He]. apply get_Some in He' as [_ He'].
    assert (Z.to_nat start = Z.to_nat start')
      by (eapply NoDup_lookup; [apply timeSlots_NoDup|exact Ht|exact Ht']).
    assert (Z.to_nat (start + colSpan) = Z.to_nat (start' + colSpan'))
      by (eapply NoDup_lookup; [apply timeSlots_NoDup|exact He|exact He']).
    lia.
Qed.

Lemma every_booking_has_its_cell_witness :
  on_grid [Samples.bookingA; Samples.bookingC] /\
  no_overlap [Samples.bookingA; Samples.bookingC] /\
  exists s e : nat,
    timeSlots !! s = Some (time Samples.bookingC) /\
    timeSlots !! e = Some (endTime Samples.bookingC) /\
    (Z.of_nat s, ScheduleTable.BookingCell Samples.bookingC
                   (Z.of_nat e - Z.of_nat s))
      ∈ ScheduleTable.place 0
          (ScheduleTable.cells timeSlots [Samples.bookingA; Samples.bookingC]).
Proof.
  assert (on_grid [Samples.bookingA; Samples.bookingC]) as Hgrid.
  { intros b [->|Hb%list_elem_of_singleton]%elem_of_cons.
    - exists 2%nat, 4%nat. repeat split. lia.
    - subst b. exists 4%nat, 5%nat. repeat split. lia. }
  assert (no_overlap [Samples.bookingA; Samples.bookingC]) as Hdis.
  { intros a b [->|Ha%list_elem_of_singleton]%elem_of_cons
             [->|Hb%list_elem_of_singleton]%elem_of_cons Hne [Hlt Hgt];
      subst; try done; discriminate. }
  split; [exact Hgrid|]. split; [exact Hdis|].
  apply (proj1 (every_booking_has_its_cell _) Hgrid Hdis).
  do 2 constructor.
Defined.

(** X13. Where the table renders and every booking of the day that starts
    at a display slot ends at a later position of the grid, the export and
    the grid show the day alike: the slot columns and merge ranges of the
    row of the export are those that show the cells of the row of the
    table, column for column, and the notes are the same. The table
    renders unless a date names a property every object inherits, which
    makes the grouping by date throw. *)
Theorem export_row_is_grid_row
    (formatToYYYYMMDD formatDateDisplay : Date -> string)
    (filteredBookings : list Booking) (days : list Date)
    (rows : list (list ScheduleTable.Cell * string))
    (k : nat) (rowIndex index : Z) (day : Date) :
  ScheduleTable.tableRows formatToYYYYMMDD timeSlots filteredBookings days
    = Some rows ->
  days !! k = Some day ->
  ends_later timeSlots
    (List.filter (fun b => String.eqb (date b) (formatToYYYYMMDD day))
                 filteredBookings) ->
  exists (cells : list ScheduleTable.Cell) (notes : string),
    rows !! k = Some (cells, notes) /\
    exportRow formatToYYYYMMDD formatDateDisplay filteredBookings
              rowIndex index day
    = ([VNumber (index + 1); VString (getArabicDayName day);
        VString (formatDateDisplay day)]
         ++ (sheetOfGrid rowIndex cells).1 ++ [VString notes],
       (sheetOfGrid rowIndex cells).2).
Proof.
  intros Hrows Hday Hwf. eexists _, _.
  split; [exact (tableRows_lookup _ _ _ _ _ _ _ Hrows Hday)|].
  unfold exportRow. cbv zeta.
  by rewrite (exportSlots_sheetOfGrid timeSlots _ timeSlots_NoDup rowIndex Hwf).
Qed.

Lemma export_row_is_grid_row_witness :
  exists (rows : list (list ScheduleTable.Cell * string))
         (cells : list ScheduleTable.Cell) (notes : string),
    ScheduleTable.tableRows DateUtils.formatToYYYYMMDD timeSlots
      [Samples.bookingA; Samples.bookingC] [20156; 20157] = Some rows /\
    rows !! 1%nat = Some (cells, notes) /\
    (exportRow DateUtils.formatToYYYYMMDD DateUtils.formatToYYYYMMDD
               [Samples.bookingA; Samples.bookingC] 5 1 20157).2
    = (sheetOfGrid 5 cells).2.
Proof.
  assert (ends_later timeSlots
            (List.filter
               (fun b => String.eqb (date b)
                           (DateUtils.formatToYYYYMMDD 20157))
               [Samples.bookingA; Samples.bookingC]))
    as Hwf.
  { intros b n [->|Hb%list_elem_of_singleton]%elem_of_cons Hn.
    - do 11 (destruct n as [|n]; [try discriminate Hn; by vm_compute|]).
      discriminate Hn.
    - subst b.
      do 11 (destruct n as [|n]; [try discriminate Hn; by vm_compute|]).
      discriminate Hn. }
  destruct (ScheduleTable.tableRows DateUtils.formatToYYYYMMDD timeSlots
              [Samples.bookingA; Samples.bookingC] [20156; 20157])
    as [rows|] eqn:Hrows; [|by vm_compute in Hrows].
  destruct (export_row_is_grid_row DateUtils.formatToYYYYMMDD
              DateUtils.formatToYYYYMMDD
              [Samples.bookingA; Samples.bookingC] [20156; 20157] rows
              1%nat 5 1 20157 Hrows eq_refl Hwf)
    as (cells & notes & Hk & Hrow).
  exists rows, cells, notes. split; [done|]. split; [exact Hk|].
  exact (f_equal snd Hrow).
Defined.

End BookingsInGrid.

(** ** Grouping by date, and the set a session starts with *)

Section Grouping.

Import App Invariants Layout.

(** X14. The grouping of the bookings by date throws exactly when the date
    of some booking names a property every object inherits. Otherwise it
    has a group for exactly the dates that some booking has; the group of a
    date holds the bookings of that date, all of them, once each, in the
    order of the list, and no group is empty. *)
Theorem bookingsByDate_groups (bookings : list Booking) :
  (ScheduleTable.bookingsByDate bookings = None <->
   exists b, b ∈ bookings /\ Js.inherited (date b) = true) /\
  (forall byDate,
     ScheduleTable.bookingsByDate bookings = Some byDate ->
     forall d : string,
       (byDate !! d = None <-> forall b, b ∈ bookings -> date b <> d) /\
       (forall group,
          byDate !! d = Some group ->
          group = List.filter (fun b => String.eqb (date b) d) bookings /\
          group <> [])).
Proof.
  split; [apply bookingsByDate_None|].
  intros byDate [_ ->]%bookingsByDate_Some d.
  pose proof (bookingsByDate_is_Some bookings ∅ d) as Hsome.
  pose proof (bookingsByDate_foldl bookings ∅ d) as Hfilter.
  rewrite lookup_empty in Hsome, Hfilter. simpl in Hfilter. split.
  - rewrite eq_None_not_Some, Hsome. split.
    + intros Hnone b Hb Hd. apply Hnone. right. by exists b.
    + intros Hnone [[? [=]]|(b & Hb & Hd)]. by apply (Hnone b).
  - intros group Hgroup. rewrite Hgroup in Hfilter. simpl in Hfilter.
    split; [done|]. intros ->.
    destruct (proj1 Hsome) as [[? [=]]|(b & Hb & Hd)]; [by eexists|].
    assert (In b (List.filter (fun b => String.eqb (date b) d) bookings)) as Hin.
    { apply filter_In. split; [by apply list_elem_of_In|].
      by apply String.eqb_eq. }
    by rewrite <- Hfilter in Hin.
Qed.

(** X15. Whenever the load does not get bookings out of the storage (the
    read throws, there is no item, the item is empty or does not parse),
    the session starts with three bookings that do not overlap and have
    distinct ids, whatever the day and the format of the dates; a stored
    string that parses is taken as it is, with nothing logged. *)
Theorem load_start_set (formatToYYYYMMDD : Date -> string)
    (JSON_parse : string -> option (list Booking))
    (today : Date) (read : StorageRead) :
  (falls_back JSON_parse read ->
   disjoint (loadBookings formatToYYYYMMDD JSON_parse today read).1 /\
   NoDup (id <$> (loadBookings formatToYYYYMMDD JSON_parse today read).1) /\
   length (loadBookings formatToYYYYMMDD JSON_parse today read).1 = 3%nat) /\
  (forall savedBookings parsed,
     read = Item savedBookings -> savedBookings <> EmptyString ->
     JSON_parse savedBookings = Some parsed ->
     loadBookings formatToYYYYMMDD JSON_parse today read = (parsed, [])).
Proof.
  split.
  - intros Hfall.
    assert ((loadBookings formatToYYYYMMDD JSON_parse today read).1
            = generateInitialBookings formatToYYYYMMDD today) as ->.
    { destruct read as [| |savedBookings]; [done|done|].
      by apply load_unparsable_falls_back. }
    split; [|split; [|done]].
    + intros a b Ha Hb Hne Hhall _ [Hlt Hgt].
      unfold generateInitialBookings in Ha, Hb.
      apply elem_of_cons in Ha as [->|Ha];
        [|apply elem_of_cons in Ha as [->|Ha%list_elem_of_singleton]];
        (apply elem_of_cons in Hb as [->|Hb];
         [|apply elem_of_cons in Hb as [->|Hb%list_elem_of_singleton]]);
        subst; try done; try discriminate Hhall;
        try discriminate Hlt; discriminate Hgt.
    + apply (bool_decide_unpack _). by vm_compute.
  - intros savedBookings parsed -> Hne Hparse. simpl.
    destruct (String.eqb_spec savedBookings EmptyString); [done|].
    by rewrite Hparse.
Qed.

Lemma load_start_set_witness :
  falls_back (fun _ => None) (Item "[{") /\
  disjoint (loadBookings DateUtils.formatToYYYYMMDD (fun _ => None) 20148
                         (Item "[{")).1.
Proof.
  assert (falls_back (fun _ : string => @None (list Booking)) (Item "[{"))
    as Hfall by (by right).
  split; [exact Hfall|].
  exact (proj1 (proj1 (load_start_set DateUtils.formatToYYYYMMDD
                         (fun _ => None) 20148 (Item "[{")) Hfall)).
Defined.

End Grouping.

(** ** The grid, the form and the conflict check together *)

Section GridAndForm.

Import App Invariants Layout.

Lemma shownOn_elem (formattedDate : string) (st : State) (b : Booking) :
  b ∈ shownOn formattedDate st <->
  b ∈ bookings st /\ hallId b = selectedHall st /\ date b = formattedDate.
Proof.
  unfold shownOn.
  rewrite !list_elem_of_In, !filter_In, String.eqb_eq, bool_decide_eq_true.
  tauto.
Qed.

Lemma shownOn_no_overlap (formattedDate : string) (st : State) :
  disjoint (bookings st) -> no_overlap (shownOn formattedDate st).
Proof.
  intros Hinv a b [Ha [Hha Hda]]%shownOn_elem [Hb [Hhb Hdb]]%shownOn_elem Hne.
  apply Hinv; congruence.
Qed.

Lemma default_form_shape (formatToYYYYMMDD : Date -> string) (day : Date)
    (k : nat) (slot : string) (st : State) :
  displayTimeSlots timeSlots !! k = Some slot ->
  exists next,
    timeSlots !! S k = Some next /\
    AppModal.getModalInitialData formatToYYYYMMDD (handleCellClick day slot st)
      = Some {| bd_date := formatToYYYYMMDD day; bd_time := slot;
                bd_endTime := next; bd_department := EmptyString;
                bd_notes := EmptyString |}.
Proof.
  intros Hk.
  do 11 (destruct k as [|k];
         [injection Hk as <-; eexists; split; reflexivity|]).
  discriminate Hk.
Qed.

(** X16. An empty cell of the grid is free: where the bookings shown on a
    day are on the grid and do not overlap, a click on an empty cell of
    that day opens a form, from the slot of the cell to the next label,
    that the conflict check accepts, so that saving it goes through. *)
Theorem empty_cell_is_free (formatToYYYYMMDD : Date -> string)
    (now : string) (st : State) (day : Date) (start : Z) (slot : string) :
  on_grid (shownOn (formatToYYYYMMDD day) st) ->
  no_overlap (shownOn (formatToYYYYMMDD day) st) ->
  (start, ScheduleTable.EmptyCell (Some slot))
    ∈ ScheduleTable.place 0
        (ScheduleTable.cells timeSlots (shownOn (formatToYYYYMMDD day) st)) ->
  exists form,
    AppModal.getModalInitialData formatToYYYYMMDD (handleCellClick day slot st)
      = Some form /\
    bd_time form = slot /\
    Js.get timeSlots (start + 1) = Some (bd_endTime form) /\
    hasConflict (handleCellClick day slot st) form = false /\
    (handleSaveBooking now form (handleCellClick day slot st)).2 = Returned.
Proof.
  intros Hgrid Hdis Hcell.
  set (shown := shownOn (formatToYYYYMMDD day) st) in *.
  pose proof Hcell as [[H0 Hmax] Hstep]%place_cellsFrom. simpl in H0, Hmax, Hstep.
  change (Js.len (ScheduleTable.displayTimeSlots timeSlots)) with 11 in Hmax.
  assert (timeSlots !! Z.to_nat start = Some slot) as Hslot.
  { unfold ScheduleTable.cellStep in Hstep.
    assert (ScheduleTable.EmptyCell (Js.get timeSlots start)
            = ScheduleTable.EmptyCell (Some slot)) as [= Hget].
    { destruct (find _ shown); [destruct (_ >? _)|]; congruence. }
    by apply get_Some in Hget as [_ Hget]. }
  destruct (default_form_shape formatToYYYYMMDD day (Z.to_nat start) slot st)
    as (next & Hnext & Hform).
  { unfold displayTimeSlots. rewrite slice_0_m1_lookup; [done|].
    change (Js.len (Js.slice_0_m1 timeSlots)) with 11. lia. }
  eexists. split; [exact Hform|]. split; [done|]. simpl.
  split.
  { unfold Js.get. destruct (Z.ltb_spec (start + 1) 0); [lia|].
    by replace (Z.to_nat (start + 1)) with (S (Z.to_nat start)) by lia. }
  assert (hasConflict (handleCellClick day slot st)
            {| bd_date := formatToYYYYMMDD day; bd_time := slot;
               bd_endTime := next; bd_department := EmptyString;
               bd_notes := EmptyString |} = false) as Hfree.
  { destruct (hasConflict _ _) eqn:Hc; [|done].
    apply hasConflict_true in Hc
      as (other & Ho & _ & Hhall & Hdate & Hlt & Hgt).
    simpl in Ho, Hhall, Hdate, Hlt, Hgt. unfold currentHall in Hhall.
    simpl in Hhall.
    assert (other ∈ shown) as Hshown by by apply shownOn_elem.
    destruct (booking_cell_exists shown other Hgrid Hdis Hshown)
      as (s & e & Hs & He & Hse & Hother).
    rewrite (timeSlots_lt _ e _ _ Hslot He) in Hlt.
    change (Js.gt ?x ?y) with (Js.lt y x) in Hgt.
    rewrite (timeSlots_lt s _ _ _ Hs Hnext) in Hgt.
    apply bool_decide_eq_true_1 in Hlt, Hgt.
    apply list_elem_of_lookup in Hcell as [i Hi], Hother as [j Hj].
    destruct (place_covers_once (ScheduleTable.cells timeSlots shown) 0 start)
      as (k & _ & Huniq).
    - intros c Hc. by eapply span_cellsFrom_pos.
    - unfold ScheduleTable.cells.
      rewrite total_span_cellsFrom; [|by vm_compute].
      change (Js.len (ScheduleTable.displayTimeSlots timeSlots)) with 11. lia.
    - assert (k = i) as ->.
      { apply Huniq. eexists. split; [exact Hi|].
        unfold ScheduleTable.covers. simpl. lia. }
      assert (i = j) as ->.
      { apply Huniq. eexists. split; [exact Hj|].
        unfold ScheduleTable.covers. simpl. lia. }
      congruence. }
  split; [exact Hfree|]. unfold handleSaveBooking. by rewrite Hfree.
Qed.

Lemma empty_cell_is_free_witness :
  exists form,
    AppModal.getModalInitialData DateUtils.formatToYYYYMMDD
      (handleCellClick 20157 "12:00"
         (withBookings [Samples.bookingA; Samples.bookingC] Samples.creating))
      = Some form /\
    hasConflict
      (handleCellClick 20157 "12:00"
         (withBookings [Samples.bookingA; Samples.bookingC] Samples.creating))
      form = false.
Proof.
  assert (on_grid (shownOn (DateUtils.formatToYYYYMMDD 20157)
                           (withBookings [Samples.bookingA; Samples.bookingC]
                              Samples.creating))) as Hgrid.
  { intros b [->|Hb%list_elem_of_singleton]%elem_of_cons.
    - exists 2%nat, 4%nat. repeat split. lia.
    - subst b. exists 4%nat, 5%nat. repeat split. lia. }
  assert (no_overlap (shownOn (DateUtils.formatToYYYYMMDD 20157)
                              (withBookings [Samples.bookingA; Samples.bookingC]
                                 Samples.creating))) as Hdis.
  { intros a b [->|Ha%list_elem_of_singleton]%elem_of_cons
             [->|Hb%list_elem_of_singleton]%elem_of_cons Hne [Hlt Hgt];
      subst; try done; discriminate. }
  destruct (empty_cell_is_free DateUtils.formatToYYYYMMDD "now"
              (withBookings [Samples.bookingA; Samples.bookingC]
                 Samples.creating)
              20157 5 "12:00" Hgrid Hdis)
    as (form & Hform & _ & _ & Hfree & _).
  { apply (list_elem_of_lookup_2 _ 4%nat). by vm_compute. }
  exists form. split; [exact Hform|exact Hfree].
Defined.

(** X17. A saved booking is shown: on a set without overlaps whose
    bookings are on the grid, a new booking from a label of the grid to a
    later one that the conflict check accepts is saved; and where no date
    of a booking of the hall and no day of the table names a property
    every object inherits, the table renders after the save and the row of
    the day of the booking holds its cell, from the column of its start
    over the columns up to its end. *)
Theorem saved_booking_is_shown (formatToYYYYMMDD : Date -> string)
    (now : string) (form : BookingData) (st : State) (s e : nat)
    (days : list Date) (k : nat) (day : Date) :
  bookingToEdit (modalInfo st) = None ->
  disjoint (bookings st) ->
  on_grid (bookings st) ->
  timeSlots !! s = Some (bd_time form) ->
  timeSlots !! e = Some (bd_endTime form) ->
  (s < e)%nat ->
  hasConflict st form = false ->
  plain_dates
    (List.filter (fun b => bool_decide (hallId b = selectedHall st))
                 (bookings st)) ->
  plain_days formatToYYYYMMDD days ->
  days !! k = Some day ->
  formatToYYYYMMDD day = bd_date form ->
  (handleSaveBooking now form st).2 = Returned /\
  exists (rows : list (list ScheduleTable.Cell * string))
         (cells : list ScheduleTable.Cell) (notes : string),
    ScheduleTable.tableRows formatToYYYYMMDD timeSlots
      (List.filter
         (fun b => bool_decide
                     (hallId b
                      = selectedHall (handleSaveBooking now form st).1))
         (bookings (handleSaveBooking now form st).1))
      days = Some rows /\
    rows !! k = Some (cells, notes) /\
    (Z.of_nat s,
     ScheduleTable.BookingCell (created now form st)
                               (Z.of_nat e - Z.of_nat s))
      ∈ ScheduleTable.place 0 cells.
Proof.
  intros Hnew Hinv Hgrid Hs He Hse Hfree Hplain Hdays Hk Hday.
  pose proof (savedBookings_disjoint now form st Hinv Hfree) as Hinv'.
  unfold handleSaveBooking. rewrite Hfree. split; [done|]. cbn [fst].
  set (st' := {| selectedHall := selectedHall st;
                 bookings := savedBookings now form st;
                 hasUnsavedChanges := true; modalInfo := closedModal |}).
  assert (bookings st' = bookings st ++ [created now form st]) as Hset.
  { unfold st', savedBookings. simpl. by rewrite Hnew. }
  assert (plain_dates
            (List.filter (fun b => bool_decide (hallId b = selectedHall st'))
                         (bookings st'))) as Hplain'.
  { intros b [Hb Hhall]%list_elem_of_In%filter_In.
    apply list_elem_of_In in Hb. rewrite Hset in Hb.
    apply elem_of_app in Hb as [Hb|Hb%list_elem_of_singleton].
    - apply Hplain. apply list_elem_of_In, filter_In.
      split; [by apply list_elem_of_In|exact Hhall].
    - subst b. simpl. rewrite <- Hday. apply Hdays.
      by apply list_elem_of_lookup_2 in Hk. }
  destruct (proj2 (tableRows_renders formatToYYYYMMDD timeSlots _ days)
              (conj Hplain' Hdays)) as [rows Hrows].
  exists rows. eexists _, _. split; [exact Hrows|].
  split; [exact (tableRows_lookup _ _ _ _ _ _ _ Hrows Hk)|].
  rewrite Hday. change (List.filter _ (List.filter _ (bookings st')))
    with (shownOn (bd_date form) st').
  assert (on_grid (shownOn (bd_date form) st')) as Hgrid'.
  { intros b [Hb _]%shownOn_elem. rewrite Hset in Hb.
    apply elem_of_app in Hb as [Hb|Hb%list_elem_of_singleton];
      [by apply Hgrid|].
    subst b. by exists s, e. }
  assert (created now form st ∈ shownOn (bd_date form) st') as Hshown.
  { apply shownOn_elem. rewrite Hset. split; [|done].
    apply elem_of_app. right. constructor. }
  destruct (booking_cell_exists _ _ Hgrid'
              (shownOn_no_overlap _ st' Hinv') Hshown)
    as (s' & e' & Hs' & He' & _ & Hcell).
  simpl in Hs', He'.
  assert (s' = s) as ->
    by (eapply NoDup_lookup; [apply timeSlots_NoDup|exact Hs'|exact Hs]).
  assert (e' = e) as ->
    by (eapply NoDup_lookup; [apply timeSlots_NoDup|exact He'|exact He]).
  exact Hcell.
Qed.

Lemma saved_booking_is_shown_witness :
  (handleSaveBooking "2025-03-09T09:00:00.000Z" (formOf Samples.bookingC)
                     Samples.creating).2 = Returned /\
  exists (rows : list (list ScheduleTable.Cell * string))
         (cells : list ScheduleTable.Cell) (notes : string),
    ScheduleTable.tableRows DateUtils.formatToYYYYMMDD timeSlots
      (List.filter
         (fun b => bool_decide
                     (hallId b
                      = selectedHall
                          (handleSaveBooking "2025-03-09T09:00:00.000Z"
                             (formOf Samples.bookingC) Samples.creating).1))
         (bookings (handleSaveBooking "2025-03-09T09:00:00.000Z"
                      (formOf Samples.bookingC) Samples.creating).1))
      [20156; 20157] = Some rows /\
    rows !! 1%nat = Some (cells, notes) /\
    (4, ScheduleTable.BookingCell
          (created "2025-03-09T09:00:00.000Z" (formOf Samples.bookingC)
                   Samples.creating) 1)
      ∈ ScheduleTable.place 0 cells.
Proof.
  apply (saved_booking_is_shown DateUtils.formatToYYYYMMDD
           "2025-03-09T09:00:00.000Z" (formOf Samples.bookingC)
           Samples.creating 4 5 [20156; 20157] 1 20157).
  - reflexivity.
  - intros a b Ha%list_elem_of_singleton Hb%list_elem_of_singleton Hne.
    congruence.
  - intros b Hb%list_elem_of_singleton. subst b.
    exists 2%nat, 4%nat. repeat split. lia.
  - reflexivity.
  - reflexivity.
  - lia.
  - reflexivity.
  - intros b Hb%list_elem_of_singleton. by subst b.
  - intros day [->|Hday%list_elem_of_singleton]%elem_of_cons;
      [|subst day]; reflexivity.
  - reflexivity.
  - reflexivity.
Defined.

(** X18. The order of the bookings does not matter to the conflict check:
    on a rearranged set it gives the same answer. *)
Theorem hasConflict_any_order (st : State) (set : list Booking)
    (form : BookingData) :
  bookings st ≡ₚ set ->
  hasConflict (withBookings set st) form = hasConflict st form.
Proof.
  intros Hperm.
  destruct (hasConflict st form) eqn:Hc.
  - apply hasConflict_true in Hc as (other & Ho & Hrest).
    apply hasConflict_true. exists other. split; [|done]. simpl.
    by rewrite <- Hperm.
  - destruct (hasConflict (withBookings set st) form) eqn:Hc'; [|done].
    apply hasConflict_true in Hc' as (other & Ho & Hrest). simpl in Ho.
    rewrite <- Hperm in Ho. rewrite <- Hc. symmetry.
    apply hasConflict_true. by exists other.
Qed.

Lemma hasConflict_any_order_witness :
  bookings Samples.editingA ≡ₚ [Samples.bookingC; Samples.bookingA] /\
  hasConflict (withBookings [Samples.bookingC; Samples.bookingA]
                            Samples.editingA) Samples.formB
  = hasConflict Samples.editingA Samples.formB.
Proof.
  assert (bookings Samples.editingA ≡ₚ [Samples.bookingC; Samples.bookingA])
    as Hperm by apply Permutation_swap.
  split; [exact Hperm|].
  exact (hasConflict_any_order Samples.editingA _ Samples.formB Hperm).
Defined.

End GridAndForm.
